(** * pandas.core.daterange: lazy date-range generator and cached date ranges

    A shallow embedding of [src/pandas/core/daterange.py]:
    - [XDateRange] (the lazy generator): [XDateRange_init], [XDateRange_iter],
      [XDateRange_next] and [list_XDateRange] (the call [list(xdr)]);
    - [DateRange] (the materialized range): [DateRange_new], [getCachedRange],
      [fromIndex], [DateRange_getitem], [DateRange_getslice], [shift].

    The module [pandas.core.datetools] is imported by the file but is not part
    of it: the offsets are taken as an interface ([Offset]), and the module
    [Datetools] gives one implementation (business days, calendar days, hours)
    on which the statements are evaluated. *)

From stdpp Require Import base option list gmap strings pretty.
From Stdlib Require Import ZArith Lia.

Local Open Scope Z_scope.

#[local] Set Warnings "-register-all".

(** ** Dates

    A Python [datetime] (naive, microsecond resolution) is the number of
    microseconds since 1970-01-01T00:00:00; comparison of datetimes is
    comparison of these numbers. *)

Abbreviation datetime := Z (only parsing).

Definition us_per_day : Z := 86400000000.

(** Day number of the civil date [y]-[m]-[d] (proleptic Gregorian calendar),
    day 0 being 1970-01-01. *)
Definition days_from_civil (y m d : Z) : Z :=
  let y' := if m <=? 2 then y - 1 else y in
  let era := y' `div` 400 in
  let yoe := y' - era * 400 in
  let mp := if m <=? 2 then m + 9 else m - 3 in
  let doy := (153 * mp + 2) `div` 5 + d - 1 in
  let doe := yoe * 365 + yoe `div` 4 - yoe `div` 100 + doy in
  era * 146097 + doe - 719468.

(** [datetime(y, m, d, hh)]; [mkdate y m d] is [datetime(y, m, d)]. *)
Definition mkdatetime (y m d hh : Z) : datetime :=
  days_from_civil y m d * us_per_day + hh * 3600000000.

Definition mkdate (y m d : Z) : datetime := mkdatetime y m d 0.

(** [datetools.normalize_date(dt)]: midnight of the day of [dt]. *)
Definition normalize_date (dt : datetime) : datetime :=
  dt - dt `mod` us_per_day.

(** [dt.weekday()]: Monday is 0, Sunday is 6 (1970-01-01 was a Thursday). *)
Definition weekday (dt : datetime) : Z :=
  (dt `div` us_per_day + 3) `mod` 7.

(** ** Exceptions and results

    A call returns a value, raises, or does not return ([Diverge]: the fuel
    given to a loop ran out). *)

Inductive exn : Type :=
  | TypeError
  | KeyError
  | IndexError
  | Exception (msg : string).

Inductive result (A : Type) : Type :=
  | Ok (a : A)
  | Raise (e : exn)
  | Diverge.

Arguments Ok {A} a.
Arguments Raise {A} e.
Arguments Diverge {A}.

Global Instance result_ret : MRet result := @Ok.

Global Instance result_bind : MBind result := λ A B f m,
  match m with
  | Ok a => f a
  | Raise e => Raise e
  | Diverge => Diverge
  end.

Definition is_Raise {A} (r : result A) : Prop :=
  match r with Raise _ => True | _ => False end.

(** ** The offset interface

    What [daterange.py] uses of a [datetools.DateOffset] object [offset]:
    - [onOffset offset d]: [offset.onOffset(d)];
    - [offset_unit offset]: [offset.__class__(n=1, **offset.kwds)];
    - [offset_mul k offset]: [k * offset];
    - [date_add d offset], [date_sub d offset]: [d + offset], [d - offset];
    - [radd_None offset]: [None + offset]. [None] has no [__add__], so the
      interpreter calls [offset.__radd__(None)]: the answer is the offset's
      own, a date or an exception;
    - [rollforward], [rollback], [isAnchored];
    - [isTick offset]: [isinstance(offset, datetools.Tick)];
    - [normalizeFirst offset]: [offset._normalizeFirst];
    - [bday]: [datetools.bday] (equal to [datetools.BDay()]), the default
      offset of both constructors;
    - [getOffset rule]: [datetools.getOffset(rule)];
    - [offsetNames offset]: the entry of [offset] in [datetools._offsetNames].
    Offsets are hashable: they are the keys of the cache. *)

Class Offset (O : Type) `{Countable O} : Type := {
  onOffset : O → datetime → bool;
  offset_unit : O → O;
  offset_mul : Z → O → O;
  date_add : datetime → O → datetime;
  date_sub : datetime → O → datetime;
  radd_None : O → result datetime;
  rollforward : O → datetime → datetime;
  rollback : O → datetime → datetime;
  isAnchored : O → bool;
  isTick : O → bool;
  normalizeFirst : O → bool;
  bday : O;
  getOffset : string → result O;
  offsetNames : O → option string
}.

(** ** XDateRange *)

Section XDateRange.
Context {O : Type} `{Offset O}.

Record XDateRange : Type := mkXDateRange {
  x_offset : O;
  x_timeRule : option string;
  x_fromDate : datetime;
  x_toDate : datetime;
  x_nPeriods : option Z
}.

(** Lines 46-51: a time rule overrides the offset; without one, the name of
    the offset (if it has one) is adopted. *)
Definition resolve_timeRule (offset : O) (timeRule : option string)
  : result (O * option string) :=
  match timeRule with
  | Some rule => offset' ← getOffset rule; Ok (offset', Some rule)
  | None => Ok (offset, offsetNames offset)
  end.

(** Lines 56-57. [if fromDate] holds of every datetime. *)
Definition snap_fromDate (offset : O) (fromDate : option datetime)
  : option datetime :=
  match fromDate with
  | Some d =>
      if negb (onOffset offset d)
      then Some (date_add d (offset_unit offset))
      else Some d
  | None => None
  end.

(** Lines 58-62. The test [toDate < fromDate] is evaluated only when
    [nPeriods == None]; with [fromDate] equal to [None] the comparison of a
    datetime with [None] raises [TypeError]. *)
Definition snap_toDate (offset : O) (fromDate toDate : option datetime)
    (nPeriods : option Z) : result (option datetime * option Z) :=
  match toDate with
  | Some d =>
      if negb (onOffset offset d) then
        let d' := date_sub d (offset_unit offset) in
        match nPeriods with
        | None =>
            match fromDate with
            | Some f => if d' <? f then Ok (None, Some 0) else Ok (Some d', None)
            | None => Raise TypeError
            end
        | Some _ => Ok (Some d', nPeriods)
        end
      else Ok (Some d, nPeriods)
  | None => Ok (None, nPeriods)
  end.

(** Lines 64-65. The right operand is evaluated first: [nPeriods - 1] with
    [nPeriods] equal to [None] raises [TypeError]. With a period count and
    [fromDate] equal to [None] the sum is [None + (nPeriods - 1) * offset],
    which the interpreter hands to the offset ([radd_None]). *)
Definition derive_toDate (offset : O) (fromDate toDate : option datetime)
    (nPeriods : option Z) : result datetime :=
  match toDate with
  | Some t => Ok t
  | None =>
      match nPeriods with
      | None => Raise TypeError
      | Some n =>
          match fromDate with
          | Some f => Ok (date_add f (offset_mul (n - 1) offset))
          | None => radd_None (offset_mul (n - 1) offset)
          end
      end
  end.

(** Lines 67-68. [toDate] is a datetime here; [nPeriods - 1] with
    [nPeriods] equal to [None] raises [TypeError]. *)
Definition derive_fromDate (offset : O) (fromDate : option datetime)
    (toDate : datetime) (nPeriods : option Z) : result datetime :=
  match fromDate with
  | Some f => Ok f
  | None =>
      match nPeriods with
      | Some n => Ok (date_sub toDate (offset_mul (n - 1) offset))
      | None => Raise TypeError
      end
  end.

(** [XDateRange.__init__]. The boundaries are given as parsed datetimes
    ([datetools.to_datetime] is the identity on them and on [None]). *)
Definition XDateRange_init (fromDate toDate : option datetime)
    (nPeriods : option Z) (offset : O) (timeRule : option string)
  : result XDateRange :=
  '(offset, timeRule) ← resolve_timeRule offset timeRule;
  let fromDate := snap_fromDate offset fromDate in
  '(toDate, nPeriods) ← snap_toDate offset fromDate toDate nPeriods;
  toDate ← derive_toDate offset fromDate toDate nPeriods;
  fromDate ← derive_fromDate offset fromDate toDate nPeriods;
  Ok (mkXDateRange offset timeRule fromDate toDate nPeriods).

(** [XDateRange.__iter__] is a generator. Its state is the local [cur]:
    [XDateRange_iter] is the value of [cur] when the loop is first reached,
    [XDateRange_next] one turn of the loop: the date yielded and the new
    value of [cur], or [None] when the loop ends. *)
Definition XDateRange_iter (self : XDateRange) : datetime :=
  let cur := x_fromDate self in
  if normalizeFirst (x_offset self) then normalize_date cur else cur.

(** The new value of [cur] after one turn of the loop (line 83). *)
Definition step (self : XDateRange) (cur : datetime) : datetime :=
  date_add cur (x_offset self).

Definition XDateRange_next (self : XDateRange) (cur : datetime)
  : option (datetime * datetime) :=
  if cur <=? x_toDate self
  then Some (cur, step self cur)
  else None.

(** [list(xdr)], the generator run to exhaustion, starting at [cur]. *)
Fixpoint list_from (fuel : nat) (self : XDateRange) (cur : datetime)
  : result (list datetime) :=
  match fuel with
  | 0%nat => Diverge
  | S fuel' =>
      match XDateRange_next self cur with
      | None => Ok []
      | Some (d, cur') => rest ← list_from fuel' self cur'; Ok (d :: rest)
      end
  end.

Definition list_XDateRange (fuel : nat) (self : XDateRange)
  : result (list datetime) :=
  list_from fuel self (XDateRange_iter self).

(** The two boundaries after lines 56-59: a boundary off the grid is moved
    by one unit step, [fromDate] forward and [toDate] backward. *)
Definition snapped_from (offset : O) (d : datetime) : datetime :=
  if onOffset offset d then d else date_add d (offset_unit offset).

Definition snapped_to (offset : O) (d : datetime) : datetime :=
  if onOffset offset d then d else date_sub d (offset_unit offset).

(** How many of the three inputs are given. *)
Definition n_given (fromDate toDate : option datetime) (nPeriods : option Z)
  : Z :=
  (match fromDate with Some _ => 1 | None => 0 end)
  + (match toDate with Some _ => 1 | None => 0 end)
  + (match nPeriods with Some _ => 1 | None => 0 end).

(** The contract of an offset whose grid is closed under its steps: a step
    from a grid date is a later grid date, a unit step from a date off the
    grid reaches the grid, and so do a step back by a multiple of the offset
    and (when the offset asks for it) normalization; and the offset adds to
    dates only: it gives no date for [None]. *)
Record OffsetLaws (o : O) : Prop := mkOffsetLaws {
  law_step_on : ∀ d, onOffset o d = true → onOffset o (date_add d o) = true;
  law_step_lt : ∀ d, d < date_add d o;
  law_unit_add_on : ∀ d,
    onOffset o d = false → onOffset o (date_add d (offset_unit o)) = true;
  law_unit_sub_on : ∀ d,
    onOffset o d = false → onOffset o (date_sub d (offset_unit o)) = true;
  law_mul_sub_on : ∀ d k,
    onOffset o d = true → onOffset o (date_sub d (offset_mul k o)) = true;
  law_normalize_on : ∀ d,
    normalizeFirst o = true →
    onOffset o d = true → onOffset o (normalize_date d) = true;
  law_radd_None : ∀ k d, radd_None (offset_mul k o) ≠ Ok d
}.

(** The contract of the rounding of an offset, on a date off the grid:
    [rollforward] and [rollback] are one unit step forward and backward,
    the step forward ends after the date and the step backward before it,
    and the step forward of an offset that normalizes ends at midnight. *)
Record RollLaws (o : O) : Prop := mkRollLaws {
  law_rollforward : ∀ d,
    onOffset o d = false → rollforward o d = date_add d (offset_unit o);
  law_rollback : ∀ d,
    onOffset o d = false → rollback o d = date_sub d (offset_unit o);
  law_rollforward_lt : ∀ d,
    onOffset o d = false → d < date_add d (offset_unit o);
  law_rollback_lt : ∀ d,
    onOffset o d = false → date_sub d (offset_unit o) < d;
  law_rollforward_midnight : ∀ d,
    normalizeFirst o = true → onOffset o d = false →
    normalize_date (date_add d (offset_unit o)) = date_add d (offset_unit o)
}.

End XDateRange.

(** ** DateRange cache *)

Definition CACHE_START : datetime := mkdate 1950 1 1.
Definition CACHE_END : datetime := mkdate 2030 1 1.

(** ** DateRange *)

Section DateRange.
Context {O : Type} `{Offset O}.

(** A [DateRange] is an ndarray of dates with two attributes, [offset] and
    [_parent], both [None] on a fresh object ([__array_finalize__] on a
    plain ndarray). A plain ndarray is a range without attributes:
    [getattr(obj, 'offset', None)] reads [None] from it. *)
Inductive DateRange : Type := mkDateRange {
  r_values : list datetime;
  r_offset : option O;
  r_parent : option DateRange
}.

Definition ndarray (a : list datetime) : DateRange := mkDateRange a None None.

Definition set_offset (r : DateRange) (offset : option O) : DateRange :=
  mkDateRange (r_values r) offset (r_parent r).

Definition set_parent (r : DateRange) (parent : option DateRange) : DateRange :=
  mkDateRange (r_values r) (r_offset r) parent.

(** [obj.view(DateRange)]: the same data; [__array_finalize__] copies the
    two attributes of [obj]. *)
Definition DateRange_view (obj : DateRange) : DateRange :=
  mkDateRange (r_values obj) (r_offset obj) (r_parent obj).

Definition len (r : DateRange) : Z := Z.of_nat (length (r_values r)).

(** ndarray indexing by an integer: a negative index counts from the end. *)
Definition ndarray_item (a : list datetime) (k : Z) : result datetime :=
  let n := Z.of_nat (length a) in
  let k' := if k <? 0 then k + n else k in
  if (0 <=? k') && (k' <? n)
  then match a !! Z.to_nat k' with Some d => Ok d | None => Raise IndexError end
  else Raise IndexError.

(** ndarray indexing by [slice(i, j)]: a negative bound counts from the
    end, and both bounds are clamped to the array. *)
Definition slice_bound (n i : Z) : Z :=
  if i <? 0 then Z.max (i + n) 0 else Z.min i n.

Definition ndarray_slice (a : list datetime) (i j : Z) : list datetime :=
  let n := Z.of_nat (length a) in
  let lo := slice_bound n i in
  let hi := slice_bound n j in
  take (Z.to_nat (hi - lo)) (drop (Z.to_nat lo) a).

(** [__getitem__] with an integer key (lines 247-250). *)
Definition DateRange_getitem (self : DateRange) (key : Z) : result datetime :=
  ndarray_item (r_values self) key.

(** [__getitem__] with the key [slice(i, j)], whose step is [None]
    (lines 247, 251-259): a new range with the offset of [self] and no
    parent. *)
Definition DateRange_getitem_slice (self : DateRange) (i j : Z) : DateRange :=
  set_offset (DateRange_view (ndarray (ndarray_slice (r_values self) i j)))
             (r_offset self).

(** [__getslice__] (lines 242-243). *)
Definition DateRange_getslice (self : DateRange) (i j : Z) : DateRange :=
  DateRange_getitem_slice self i j.

(** The expression [self[i:j]]. The class defines [__getslice__], which
    the interpreter calls after adding [len(self)] to a negative bound; a
    missing lower bound is 0, a missing upper bound is [sys.maxint], which
    the slice clamps to [len(self)]. *)
Definition slice_expr (self : DateRange) (i j : option Z) : DateRange :=
  let adjust k := if k <? 0 then k + len self else k in
  DateRange_getslice self
    (match i with Some i => adjust i | None => 0 end)
    (match j with Some j => adjust j | None => len self end).

(** Modelled from the spec: [Index.indexMap] ([pandas.core.index], not in
    this file) maps a date to its integer position in the sequence; looking
    up a date that is not present fails ([KeyError]). *)
Fixpoint indexMap (a : list datetime) (d : datetime) : option Z :=
  match a with
  | [] => None
  | x :: a' => if x =? d then Some 0 else Z.succ <$> indexMap a' d
  end.

Definition indexMap_get (r : DateRange) (d : datetime) : result Z :=
  match indexMap (r_values r) d with
  | Some pos => Ok pos
  | None => Raise KeyError
  end.

(** *** The class attribute [DateRange._cache]

    The class methods read and write the dictionary [_cache]: a call is a
    function of the cache before it, and gives a result and the cache
    after it. *)
Definition M (A : Type) : Type :=
  gmap O DateRange → result A * gmap O DateRange.

Global Instance M_ret : MRet M := λ A a cache, (Ok a, cache).

Global Instance M_bind : MBind M := λ A B f m cache,
  match m cache with
  | (Ok a, cache') => f a cache'
  | (Raise e, cache') => (Raise e, cache')
  | (Diverge, cache') => (Diverge, cache')
  end.

Definition lift {A} (r : result A) : M A := λ cache, (r, cache).

(** [fromIndex]: [cls(index=index)] takes the branch of [__new__] for a
    pre-built index (lines 125-126 and 159-160). *)
Definition fromIndex (index : DateRange) : DateRange := DateRange_view index.

(** Lines 174-178 of [getCachedRange]. *)
Definition resolve_offset (offset : option O) (timeRule : option string)
  : result O :=
  offset ← match timeRule with
           | Some rule => o ← getOffset rule; Ok (Some o)
           | None => Ok offset
           end;
  match offset with
  | None => Raise (Exception "Must provide a DateOffset!")
  | Some o => Ok o
  end.

(** Lines 181-185: the canonical sequence of [offset]. *)
Definition build_canonical (fuel : nat) (offset : O) : result DateRange :=
  xdr ← XDateRange_init (Some CACHE_START) (Some CACHE_END) None offset None;
  arr ← list_XDateRange fuel xdr;
  Ok (set_offset (fromIndex (ndarray arr)) (Some offset)).

(** Lines 180-189. *)
Definition cached_canonical (fuel : nat) (offset : O) : M DateRange :=
  λ cache,
  match cache !! offset with
  | None =>
      match build_canonical fuel offset with
      | Ok cachedRange => (Ok cachedRange, <[offset := cachedRange]> cache)
      | Raise e => (Raise e, cache)
      | Diverge => (Diverge, cache)
      end
  | Some cachedRange => (Ok cachedRange, cache)
  end.

(** Lines 191-217: the two bounds of the slice. *)
Definition slice_locs (offset : O) (cachedRange : DateRange)
    (start end_ : option datetime) (periods : option Z) : result (Z * Z) :=
  match start, end_ with
  | None, None => Raise (Exception "Must provide start or end date!")
  | None, Some e =>
      match periods with
      | None => Raise (Exception "Must provide number of periods!")
      | Some p =>
          let e := rollback offset e in
          pos ← indexMap_get cachedRange e;
          let endLoc := pos + 1 in
          Ok (endLoc - p, endLoc)
      end
  | Some s, None =>
      let s := rollforward offset s in
      startLoc ← indexMap_get cachedRange s;
      match periods with
      | None => Raise (Exception "Must provide number of periods!")
      | Some p => Ok (startLoc, startLoc + p)
      end
  | Some s, Some e =>
      let s := rollforward offset s in
      let e := rollback offset e in
      startLoc ← indexMap_get cachedRange s;
      pos ← indexMap_get cachedRange e;
      Ok (startLoc, pos + 1)
  end.

(** Lines 219-222: the slice of the canonical sequence, with its parent. *)
Definition index_slice (offset : O) (cachedRange : DateRange)
    (start end_ : option datetime) (periods : option Z) : result DateRange :=
  '(startLoc, endLoc) ← slice_locs offset cachedRange start end_ periods;
  let indexSlice := slice_expr cachedRange (Some startLoc) (Some endLoc) in
  Ok (set_parent indexSlice (Some cachedRange)).

(** [DateRange.getCachedRange]. *)
Definition getCachedRange (fuel : nat) (start end_ : option datetime)
    (periods : option Z) (offset : option O) (timeRule : option string)
  : M DateRange :=
  offset ← lift (resolve_offset offset timeRule);
  cachedRange ← cached_canonical fuel offset;
  lift (index_slice offset cachedRange start end_ periods).

(** The keyword arguments [**kwds] that [__new__] reads. *)
Record kwds : Type := mkKwds {
  kw_index : option DateRange;
  kw_begin : option datetime;
  kw_end : option datetime;
  kw_nPeriods : option Z
}.

Definition no_kwds : kwds := mkKwds None None None None.

(** Lines 139-145: the test that sends a construction to the cache. *)
Definition useCache (fromDate toDate : option datetime) : bool :=
  let fromInside :=
    match fromDate with Some d => CACHE_START <? d | None => false end in
  let toInside :=
    match toDate with Some d => d <? CACHE_END | None => false end in
  fromInside && toInside.

Definition cache_path (fromDate toDate : option datetime) (offset : O)
  : bool :=
  useCache fromDate toDate && isAnchored offset && negb (isTick offset).

(** Lines 151-158: the generator run to the end, as a range with [offset]. *)
Definition materialize (fuel : nat) (fromDate toDate : option datetime)
    (periods : option Z) (offset : O) (timeRule : option string)
  : result DateRange :=
  xdr ← XDateRange_init fromDate toDate periods offset timeRule;
  arr ← list_XDateRange fuel xdr;
  Ok (set_offset (DateRange_view (ndarray arr)) (Some offset)).

(** Lines 128-131: the alias of a boundary is read when the boundary is not
    given ([not fromDate] holds of [None] only: a datetime is never false). *)
Definition boundary_arg (primary alias : option datetime) : option datetime :=
  match primary with Some _ => primary | None => alias end.

(** Lines 132-133: [not periods] holds of [None] and of 0. *)
Definition periods_arg (periods alias : option Z) : option Z :=
  match periods with
  | None | Some 0 => alias
  | Some _ => periods
  end.

(** [DateRange.__new__]. *)
Definition DateRange_new (fuel : nat) (fromDate toDate : option datetime)
    (periods : option Z) (offset : O) (timeRule : option string)
    (kw : kwds) : M DateRange :=
  match kw_index kw with
  | None =>
      let fromDate := boundary_arg fromDate (kw_begin kw) in
      let toDate := boundary_arg toDate (kw_end kw) in
      let periods := periods_arg periods (kw_nPeriods kw) in
      if cache_path fromDate toDate offset
      then getCachedRange fuel fromDate toDate periods (Some offset) timeRule
      else lift (materialize fuel fromDate toDate periods offset timeRule)
  | Some index => mret (DateRange_view index)
  end.

(** [d + self.offset] and [d - self.offset]: the attribute may be [None]. *)
Definition add_offset (d : datetime) (offset : option O) : result datetime :=
  match offset with
  | Some o => Ok (date_add d o)
  | None => Raise TypeError
  end.

Definition sub_offset (d : datetime) (offset : option O) : result datetime :=
  match offset with
  | Some o => Ok (date_sub d o)
  | None => Raise TypeError
  end.

(** [np.concatenate((a, b)).view(DateRange)] with its offset set. *)
Definition concatenate (a b : DateRange) (offset : option O) : DateRange :=
  set_offset (DateRange_view (ndarray (r_values a ++ r_values b))) offset.

(** [DateRange.shift]. The two constructions pass no offset: they take
    the default of [__new__], [datetools.bday]. *)
Definition shift (fuel : nat) (self : DateRange) (n : Z) : M DateRange :=
  if 0 <? n then
    last ← lift (DateRange_getitem self (-1));
    start ← lift (add_offset last (r_offset self));
    tail ← DateRange_new fuel (Some start) None (Some n) bday None no_kwds;
    mret (concatenate (slice_expr self (Some n) None) tail (r_offset self))
  else if n <? 0 then
    first ← lift (DateRange_getitem self 0);
    end_ ← lift (sub_offset first (r_offset self));
    head ← DateRange_new fuel None (Some end_) (Some (- n)) bday None no_kwds;
    mret (concatenate head (slice_expr self None (Some n)) (r_offset self))
  else mret self.

(** *** Requests

    A request is a call of the constructor; a sequence of requests is run
    one after the other on the cache that the previous one left. *)
Record request : Type := mkRequest {
  q_fromDate : option datetime;
  q_toDate : option datetime;
  q_periods : option Z;
  q_offset : O;
  q_timeRule : option string;
  q_kwds : kwds
}.

Definition run_request (fuel : nat) (q : request) : M DateRange :=
  DateRange_new fuel (q_fromDate q) (q_toDate q) (q_periods q) (q_offset q)
    (q_timeRule q) (q_kwds q).

Fixpoint run_requests (fuel : nat) (qs : list request)
    (cache : gmap O DateRange) : gmap O DateRange :=
  match qs with
  | [] => cache
  | q :: qs' => run_requests fuel qs' (snd (run_request fuel q cache))
  end.

(** A cacheable request, with the offset that keys its canonical sequence:
    no pre-built index, and the test of lines 139-145 holds. *)
Definition cacheable (q : request) (o : O) : Prop :=
  kw_index (q_kwds q) = None ∧
  cache_path (boundary_arg (q_fromDate q) (kw_begin (q_kwds q)))
             (boundary_arg (q_toDate q) (kw_end (q_kwds q)))
             (q_offset q) = true ∧
  resolve_offset (Some (q_offset q)) (q_timeRule q) = Ok o.

Definition same_boundaries (q q' : request) : Prop :=
  boundary_arg (q_fromDate q) (kw_begin (q_kwds q)) =
    boundary_arg (q_fromDate q') (kw_begin (q_kwds q')) ∧
  boundary_arg (q_toDate q) (kw_end (q_kwds q)) =
    boundary_arg (q_toDate q') (kw_end (q_kwds q')).

(** The invariant of a range with the offset [o]: every element is on
    the grid, each element is its predecessor plus one step, and the
    elements are strictly increasing. *)
Definition grid_sequence (o : O) (l : list datetime) : Prop :=
  Forall (λ e, onOffset o e = true) l ∧
  (∀ (i : nat) a b, l !! i = Some a → l !! S i = Some b → b = date_add a o) ∧
  (∀ (i j : nat) a b,
     (i < j)%nat → l !! i = Some a → l !! j = Some b → a < b).

(** A cache whose entries were all built by [getCachedRange]. *)
Definition cache_built (cache : gmap O DateRange) : Prop :=
  ∀ o c, cache !! o = Some c → ∃ fuel : nat, build_canonical fuel o = Ok c.

(** *** The words of the specification

    The slice [lo : hi) of a sequence: its elements at the positions from
    [lo] up to, not including, [hi]. *)
Definition slice_of (a : list datetime) (lo hi : Z) : list datetime :=
  take (Z.to_nat (hi - lo)) (drop (Z.to_nat lo) a).

(** The bounds of the slice as the specification gives them, from the
    positions of the rounded boundaries in the canonical sequence. *)
Definition spec_slice_locs (offset : O) (canonical : list datetime)
    (start end_ : option datetime) (periods : option Z) : option (Z * Z) :=
  match start, end_, periods with
  | None, Some e, Some p =>
      pos ← indexMap canonical (rollback offset e);
      Some (pos + 1 - p, pos + 1)
  | Some s, None, Some p =>
      pos ← indexMap canonical (rollforward offset s);
      Some (pos, pos + p)
  | Some s, Some e, _ =>
      startLoc ← indexMap canonical (rollforward offset s);
      pos ← indexMap canonical (rollback offset e);
      Some (startLoc, pos + 1)
  | _, _, _ => None
  end.

End DateRange.

Definition is_Ok {A} (r : result A) : Prop :=
  match r with Ok _ => True | _ => False end.

Arguments DateRange O : clear implicits.
Arguments request O : clear implicits.
Arguments kwds O : clear implicits.
Arguments XDateRange O : clear implicits.

(** ** The other operations of DateRange *)

Section DateRange_operations.
Context {O : Type} `{Offset O}.

(** [_bin_op(op)] (lines 94-98) with a scalar [other]: [op] applied to the
    ndarray view of [self] and [other] compares every element with [other]
    and gives the array of the answers. *)
Definition _bin_op (op : datetime → datetime → bool) (self : DateRange O)
    (other : datetime) : list bool :=
  map (λ d, op d other) (r_values self).

(** Lines 236-240. *)
Definition DateRange_lt : DateRange O → datetime → list bool := _bin_op Z.ltb.
Definition DateRange_le : DateRange O → datetime → list bool := _bin_op Z.leb.
Definition DateRange_gt : DateRange O → datetime → list bool := _bin_op Z.gtb.
Definition DateRange_ge : DateRange O → datetime → list bool := _bin_op Z.geb.
Definition DateRange_eq : DateRange O → datetime → list bool := _bin_op Z.eqb.

(** The elements of [a] at the positions [skip], [skip + k], [skip + 2k],
    ... ([k] is at least 1). *)
Fixpoint strided_from (skip k : nat) (a : list datetime) : list datetime :=
  match a with
  | [] => []
  | x :: a' =>
      match skip with
      | 0%nat => x :: strided_from (k - 1) k a'
      | S skip' => strided_from skip' k a'
      end
  end.

(** ndarray indexing by [slice(i, j, step)] with a positive step: the bounds
    are those of a slice without step ([None] is the start or the end of
    the array), and every [step]-th element between them is taken. *)
Definition ndarray_slice_step (a : list datetime) (i j : option Z)
    (step : positive) : list datetime :=
  let n := Z.of_nat (length a) in
  let lo := match i with Some i => slice_bound n i | None => 0 end in
  let hi := match j with Some j => slice_bound n j | None => n end in
  strided_from 0 (Pos.to_nat step)
    (take (Z.to_nat (hi - lo)) (drop (Z.to_nat lo) a)).

(** [__getitem__] with the key [slice(i, j, step)], [step] a positive
    integer (lines 247, 251-255 and 259): the offset of the new range is
    [key.step * self.offset], which raises [TypeError] when [self] has no
    offset. The expression [self[i:j:step]] is this call: a slice with a
    step does not go through [__getslice__]. *)
Definition DateRange_getitem_step (self : DateRange O) (i j : option Z)
    (step : positive) : result (DateRange O) :=
  let result := ndarray_slice_step (r_values self) i j step in
  let newIndex := DateRange_view (ndarray result) in
  match r_offset self with
  | Some o => Ok (set_offset newIndex (Some (offset_mul (Z.pos step) o)))
  | None => Raise TypeError
  end.

(** [__repr__] (lines 263-268). The texts of an offset (or of [None]) and of
    a date, [str_offset] and [str_datetime], are those of [datetools] and of
    [datetime]; [self[0]] and [self[-1]] are read before the length. *)
Definition DateRange_repr (str_offset : option O → string)
    (str_datetime : datetime → string) (self : DateRange O) : result string :=
  let nl := String (Ascii.ascii_of_nat 10) EmptyString in
  let output :=
    ("<class 'pandas.core.daterange.DateRange'>" +:+ nl)%string in
  let output :=
    (output +:+ "offset: " +:+ str_offset (r_offset self) +:+ nl)%string in
  first ← DateRange_getitem self 0;
  last ← DateRange_getitem self (-1);
  let output :=
    (output +:+ "[" +:+ str_datetime first +:+ ", ..., "
     +:+ str_datetime last +:+ "]" +:+ nl)%string in
  Ok (output +:+ "length: " +:+ pretty (len self))%string.

End DateRange_operations.

(** ** An implementation of the offsets *)

Module Datetools.

(** Modelled from the spec: [pandas.core.datetools] is not among the
    sources. Three of its offset classes, each with its multiple [n]:
    [BDay] (business days: the grid is Monday to Friday, the default offset
    of the spec), [DateOffset] without keywords (calendar days) and [Hour]
    (a fixed-duration tick). *)
Inductive offset : Type :=
  | BDay (n : Z)
  | DateOffset (n : Z)
  | Hour (n : Z).

Global Instance offset_eq_dec : EqDecision offset.
Proof. solve_decision. Defined.

Definition offset_code (o : offset) : Z + (Z + Z) :=
  match o with
  | BDay n => inl n
  | DateOffset n => inr (inl n)
  | Hour n => inr (inr n)
  end.

Definition offset_decode (c : Z + (Z + Z)) : offset :=
  match c with
  | inl n => BDay n
  | inr (inl n) => DateOffset n
  | inr (inr n) => Hour n
  end.

Global Instance offset_countable : Countable offset.
Proof.
  apply (inj_countable' offset_code offset_decode). by intros [].
Defined.

Definition offset_n (o : offset) : Z :=
  match o with BDay n | DateOffset n | Hour n => n end.

(** [o.__class__(n=k, **o.kwds)]. *)
Definition with_n (k : Z) (o : offset) : offset :=
  match o with
  | BDay _ => BDay k
  | DateOffset _ => DateOffset k
  | Hour _ => Hour k
  end.

(** Modelled from the spec: one business-day step in the direction [k]
    (1 or -1): move day by day until a weekday is reached. At most two
    days in a row are not weekdays. *)
Definition bday_step (k : Z) (d : datetime) : datetime :=
  let d1 := d + k * us_per_day in
  if weekday d1 <? 5 then d1 else
  let d2 := d1 + k * us_per_day in
  if weekday d2 <? 5 then d2 else d2 + k * us_per_day.

(** Modelled from the spec: [add(date, n)] of the business-day offset.
    [n] steps ([n = 0] counts as one step forward from a weekend); the
    result is a weekday at midnight. *)
Definition BDay_apply (n : Z) (other : datetime) : datetime :=
  let n := if (n =? 0) && (4 <? weekday other) then 1 else n in
  normalize_date (Nat.iter (Z.to_nat (Z.abs n)) (bday_step (Z.sgn n)) other).

(** Modelled from the spec: [add(date, n)]. *)
Definition apply (o : offset) (other : datetime) : datetime :=
  match o with
  | BDay n => BDay_apply n other
  | DateOffset n => other + n * us_per_day
  | Hour n => other + n * 3600000000
  end.

(** Modelled from the spec: [onGrid(date)]. Business days: Monday to
    Friday, whatever the time of day; the other two: a date is on the grid
    when a step forward and back returns to it. *)
Definition on_offset (o : offset) (d : datetime) : bool :=
  match o with
  | BDay _ => weekday d <? 5
  | _ => d =? apply (with_n (- offset_n o) o) (apply o d)
  end.

(** Modelled from the spec: the offsets add to dates only. On [None] the
    business day raises an exception of its own; the other two add a
    [timedelta] to the operand, which raises [TypeError]. *)
Definition radd_none (o : offset) : result datetime :=
  match o with
  | BDay _ =>
      Raise (Exception
        "Only know how to combine business day with datetime or timedelta!")
  | _ => Raise TypeError
  end.

(** Modelled from the spec: [requiresNormalization()]. *)
Definition normalize_first (o : offset) : bool :=
  match o with BDay _ => true | _ => false end.

(** Modelled from the spec: [forward(date)] and [backward(date)]: the
    date itself when on the grid (after normalization when the offset
    requires it), else one unit step away. *)
Definition roll_forward (o : offset) (d : datetime) : datetime :=
  let d := if normalize_first o then normalize_date d else d in
  if on_offset o d then d else apply (with_n 1 o) d.

Definition roll_back (o : offset) (d : datetime) : datetime :=
  let d := if normalize_first o then normalize_date d else d in
  if on_offset o d then d else apply (with_n (-1) o) d.

(** Modelled from the spec: the resolve-by-name function and the
    canonical names, with the one rule of the business day. *)
Definition get_offset (rule : string) : result offset :=
  if String.eqb rule "WEEKDAY" then Ok (BDay 1)
  else Raise (Exception "Bad rule name requested!").

Definition offset_names (o : offset) : option string :=
  if decide (o = BDay 1) then Some "WEEKDAY"%string else None.

Global Instance offset_Offset : Offset offset := {|
  onOffset := on_offset;
  offset_unit := with_n 1;
  offset_mul := λ k o, with_n (k * offset_n o) o;
  date_add := λ d o, apply o d;
  date_sub := λ d o, apply (with_n (- offset_n o) o) d;
  radd_None := radd_none;
  rollforward := roll_forward;
  rollback := roll_back;
  isAnchored := λ o, offset_n o =? 1;
  isTick := λ o, match o with Hour _ => true | _ => false end;
  normalizeFirst := normalize_first;
  bday := BDay 1;
  getOffset := get_offset;
  offsetNames := offset_names
|}.

End Datetools.

(** ** Two ranges of business days *)

(** The business days of the week of Monday 2021-01-04. *)
Definition week : DateRange Datetools.offset :=
  mkDateRange
    [mkdate 2021 1 4; mkdate 2021 1 5; mkdate 2021 1 6; mkdate 2021 1 7;
     mkdate 2021 1 8] (Some (Datetools.BDay 1)) None.

(** Thursday 2021-01-07 and Friday 2021-01-08. *)
Definition two_days : DateRange Datetools.offset :=
  mkDateRange [mkdate 2021 1 7; mkdate 2021 1 8] (Some (Datetools.BDay 1))
    None.

(** * Properties *)

(** ** Results *)

Lemma bind_Ok {A B} (m : result A) (f : A → result B) (b : B) :
  m ≫= f = Ok b → ∃ a, m = Ok a ∧ f a = Ok b.
Proof. destruct m as [a| |]; simpl; [eauto | done..]. Qed.

Lemma bind_Ok_l {A B} (m : result A) (f : A → result B) (a : A) :
  m = Ok a → m ≫= f = f a.
Proof. by intros ->. Qed.

(** ** The generator *)

Section XDateRange_facts.
Context {O : Type} `{Offset O}.
Implicit Types (self : XDateRange O) (cur d : datetime) (l : list datetime).

Lemma XDateRange_next_Some self cur :
  cur ≤ x_toDate self →
  XDateRange_next self cur = Some (cur, step self cur).
Proof.
  intros Hle. unfold XDateRange_next.
  destruct (Z.leb_spec cur (x_toDate self)); [done | lia].
Qed.

Lemma XDateRange_next_None self cur :
  x_toDate self < cur → XDateRange_next self cur = None.
Proof.
  intros Hlt. unfold XDateRange_next.
  destruct (Z.leb_spec cur (x_toDate self)); [lia | done].
Qed.

Lemma list_from_nil (fuel : nat) self cur :
  x_toDate self < cur → list_from (S fuel) self cur = Ok [].
Proof. intros Hlt. simpl. by rewrite XDateRange_next_None. Qed.

Lemma list_from_cons (fuel : nat) self cur :
  cur ≤ x_toDate self →
  list_from (S fuel) self cur =
    rest ← list_from fuel self (step self cur); Ok (cur :: rest).
Proof. intros Hle. simpl. by rewrite XDateRange_next_Some. Qed.

(** The generator never raises. *)
Lemma list_from_no_raise (fuel : nat) self cur e :
  list_from fuel self cur ≠ Raise e.
Proof.
  revert cur. induction fuel as [|fuel IH]; intros cur; [done|].
  destruct (Z.le_gt_cases cur (x_toDate self)) as [Hle|Hgt].
  - rewrite list_from_cons by done.
    specialize (IH (step self cur)).
    by destruct (list_from fuel self (step self cur)).
  - rewrite list_from_nil by lia. done.
Qed.

(** What the exhausted generator has produced: the iterates of [step]
    from the starting cursor, as long as they do not pass [toDate]. *)
Lemma list_from_lookup (fuel : nat) self cur l :
  list_from fuel self cur = Ok l →
  ∀ (i : nat) d, l !! i = Some d →
    d = Nat.iter i (step self) cur ∧ d ≤ x_toDate self.
Proof.
  revert cur l. induction fuel as [|fuel IH]; intros cur l Hrun; [done|].
  destruct (Z.le_gt_cases cur (x_toDate self)) as [Hle|Hgt].
  - rewrite list_from_cons in Hrun by done.
    apply bind_Ok in Hrun as (rest & Hrest & [= <-]).
    intros [|i] d Hd; simpl in Hd.
    + by inversion Hd; subst.
    + destruct (IH _ _ Hrest i d Hd) as [-> ?]. split; [|done].
      by rewrite Nat.iter_succ_r.
  - rewrite list_from_nil in Hrun by lia. inversion Hrun; subst.
    intros i d Hd. by rewrite lookup_nil in Hd.
Qed.

Lemma list_from_stop (fuel : nat) self cur l :
  list_from fuel self cur = Ok l →
  x_toDate self < Nat.iter (length l) (step self) cur.
Proof.
  revert cur l. induction fuel as [|fuel IH]; intros cur l Hrun; [done|].
  destruct (Z.le_gt_cases cur (x_toDate self)) as [Hle|Hgt].
  - rewrite list_from_cons in Hrun by done.
    apply bind_Ok in Hrun as (rest & Hrest & [= <-]).
    simpl length. rewrite Nat.iter_succ_r. by apply IH.
  - rewrite list_from_nil in Hrun by lia. inversion Hrun; subst. simpl. lia.
Qed.

Lemma list_from_empty_iff (fuel : nat) self cur l :
  list_from fuel self cur = Ok l → l = [] ↔ x_toDate self < cur.
Proof.
  intros Hrun. split.
  - intros ->. by apply list_from_stop in Hrun.
  - intros Hlt. destruct fuel as [|fuel]; [done|].
    rewrite list_from_nil in Hrun by done. by inversion Hrun.
Qed.

Lemma list_from_adjacent (fuel : nat) self cur l (i : nat) a b :
  list_from fuel self cur = Ok l →
  l !! i = Some a → l !! S i = Some b → b = step self a.
Proof.
  intros Hrun Ha Hb.
  destruct (list_from_lookup _ _ _ _ Hrun _ _ Ha) as [-> _].
  by destruct (list_from_lookup _ _ _ _ Hrun _ _ Hb) as [-> _].
Qed.

(** More fuel does not change a result. *)
Lemma list_from_fuel_mono (fuel fuel' : nat) self cur l :
  (fuel ≤ fuel')%nat →
  list_from fuel self cur = Ok l → list_from fuel' self cur = Ok l.
Proof.
  revert fuel' cur l. induction fuel as [|fuel IH]; intros fuel' cur l Hle Hrun;
    [done|].
  destruct fuel' as [|fuel']; [lia|].
  destruct (Z.le_gt_cases cur (x_toDate self)) as [Hc|Hc].
  - rewrite list_from_cons in Hrun |- * by done.
    apply bind_Ok in Hrun as (rest & Hrest & [= <-]).
    by rewrite (IH fuel' _ rest) by (done || lia).
  - rewrite list_from_nil in Hrun |- * by lia. done.
Qed.

(** When every step moves the cursor forward, the loop ends: any fuel
    above [toDate - cur + 1] is enough. *)
Lemma list_from_terminates (k : nat) self cur :
  (∀ d, d < step self d) →
  (Z.to_nat (x_toDate self - cur + 1) ≤ k)%nat →
  ∃ l, list_from (S k) self cur = Ok l.
Proof.
  intros Hinc. revert cur. induction k as [|k IH]; intros cur Hk.
  - exists []. apply list_from_nil. lia.
  - destruct (Z.le_gt_cases cur (x_toDate self)) as [Hle|Hgt].
    + rewrite list_from_cons by done.
      pose proof (Hinc cur) as Hcur.
      destruct (IH (step self cur)) as [rest Hrest]; [lia|].
      exists (cur :: rest). by rewrite Hrest.
    + exists []. apply list_from_nil. lia.
Qed.

Lemma list_XDateRange_terminates self :
  (∀ d, d < step self d) →
  ∃ l, list_XDateRange
         (S (Z.to_nat (x_toDate self - XDateRange_iter self + 1))) self = Ok l.
Proof. intros Hinc. by apply list_from_terminates. Qed.

End XDateRange_facts.

(** ** Construction of the generator *)

Section XDateRange_init_facts.
Context {O : Type} `{Offset O}.
Implicit Types (o offset : O) (f t d : datetime) (tr : option string).

Lemma resolve_timeRule_None offset :
  resolve_timeRule offset None = Ok (offset, offsetNames offset).
Proof. done. Qed.

(** [__init__] with both boundaries given, in closed form. *)
Lemma XDateRange_init_both f t (n : option Z) offset tr o tr' :
  resolve_timeRule offset tr = Ok (o, tr') →
  XDateRange_init (Some f) (Some t) n offset tr =
    if onOffset o t then Ok (mkXDateRange o tr' (snapped_from o f) t n)
    else match n with
         | Some _ =>
             Ok (mkXDateRange o tr' (snapped_from o f) (snapped_to o t) n)
         | None =>
             if snapped_to o t <? snapped_from o f
             then Ok (mkXDateRange o tr' (snapped_from o f)
                        (date_add (snapped_from o f) (offset_mul (0 - 1) o))
                        (Some 0))
             else Ok (mkXDateRange o tr' (snapped_from o f) (snapped_to o t)
                        None)
         end.
Proof.
  intros Hres. unfold XDateRange_init. rewrite Hres. cbn [mbind result_bind].
  unfold snap_fromDate, snap_toDate, snapped_from, snapped_to.
  destruct (onOffset o f), (onOffset o t), n as [n|]; cbn; try done;
    by destruct (_ <? _).
Qed.

(** [__init__] with [fromDate] and a period count. *)
Lemma XDateRange_init_from f (n : Z) offset tr o tr' :
  resolve_timeRule offset tr = Ok (o, tr') →
  XDateRange_init (Some f) None (Some n) offset tr =
    Ok (mkXDateRange o tr' (snapped_from o f)
          (date_add (snapped_from o f) (offset_mul (n - 1) o)) (Some n)).
Proof.
  intros Hres. unfold XDateRange_init. rewrite Hres. cbn [mbind result_bind].
  unfold snap_fromDate, snapped_from. by destruct (onOffset o f).
Qed.

(** [__init__] with [toDate] and a period count. *)
Lemma XDateRange_init_to t (n : Z) offset tr o tr' :
  resolve_timeRule offset tr = Ok (o, tr') →
  XDateRange_init None (Some t) (Some n) offset tr =
    Ok (mkXDateRange o tr'
          (date_sub (snapped_to o t) (offset_mul (n - 1) o))
          (snapped_to o t) (Some n)).
Proof.
  intros Hres. unfold XDateRange_init. rewrite Hres. cbn [mbind result_bind].
  unfold snap_fromDate, snap_toDate, snapped_to. by destruct (onOffset o t).
Qed.

(** The offset of a constructed generator is the resolved one. *)
Lemma XDateRange_init_offset (fromDate toDate : option datetime)
    (n : option Z) offset tr o tr' (x : XDateRange O) :
  resolve_timeRule offset tr = Ok (o, tr') →
  XDateRange_init fromDate toDate n offset tr = Ok x →
  x_offset x = o.
Proof.
  intros Hres. unfold XDateRange_init. rewrite Hres. cbn [mbind result_bind].
  intros Hx.
  apply bind_Ok in Hx as ([t' n'] & _ & Hx).
  apply bind_Ok in Hx as (t'' & _ & Hx).
  apply bind_Ok in Hx as (f'' & _ & Hx).
  by inversion Hx.
Qed.

(** Without a period count, arithmetic on [None] raises [TypeError]. *)
Lemma XDateRange_init_few (fromDate toDate : option datetime) offset tr o tr' :
  resolve_timeRule offset tr = Ok (o, tr') →
  n_given fromDate toDate None < 2 →
  XDateRange_init fromDate toDate None offset tr = Raise TypeError.
Proof.
  intros Hres Hlt. unfold XDateRange_init. rewrite Hres.
  cbn [mbind result_bind].
  destruct fromDate as [f|], toDate as [t|];
    unfold n_given in Hlt; try lia; cbn;
    unfold snap_toDate; repeat (destruct (onOffset _ _); cbn); done.
Qed.

(** With a period count only, the construction is what the offset answers
    to [None + (nPeriods - 1) * offset]. *)
Lemma XDateRange_init_periods_only (n : Z) offset tr o tr' :
  resolve_timeRule offset tr = Ok (o, tr') →
  XDateRange_init None None (Some n) offset tr =
    d ← radd_None (offset_mul (n - 1) o);
    Ok (mkXDateRange o tr' (date_sub d (offset_mul (n - 1) o)) d (Some n)).
Proof.
  intros Hres. unfold XDateRange_init. rewrite Hres. cbn.
  by destruct (radd_None (offset_mul (n - 1) o)).
Qed.

(** A construction with fewer than two inputs returns a generator only
    when the offset gives a date for [None]. *)
Lemma XDateRange_init_few_Ok (fromDate toDate : option datetime)
    (nPeriods : option Z) offset tr o tr' x :
  resolve_timeRule offset tr = Ok (o, tr') →
  n_given fromDate toDate nPeriods < 2 →
  XDateRange_init fromDate toDate nPeriods offset tr = Ok x →
  ∃ n d, nPeriods = Some n ∧ radd_None (offset_mul (n - 1) o) = Ok d.
Proof.
  intros Hres Hlt Hx. destruct nPeriods as [n|].
  - destruct fromDate, toDate; unfold n_given in Hlt; try lia.
    rewrite (XDateRange_init_periods_only _ _ _ _ _ Hres) in Hx.
    apply bind_Ok in Hx as (d & Hd & _). eauto.
  - by rewrite (XDateRange_init_few _ _ _ _ _ _ Hres Hlt) in Hx.
Qed.

(** C4. A construction that is given fewer than two of [fromDate], [toDate]
    and [nPeriods], once the offset is resolved. Without a period count it
    raises the [TypeError] of an operation on [None] ([None - 1], or the
    comparison of a date with [None]). With a period count only, line 65
    adds the offset to [None], which the interpreter hands to the offset:
    the construction raises what the offset raises. For offsets that give
    no date for [None] no generator is returned, whatever the offset and
    the time rule: this is the insufficient-parameters failure of the
    specification. *)
Theorem XDateRange_init_insufficient (fromDate toDate : option datetime)
    (nPeriods : option Z) offset tr :
  n_given fromDate toDate nPeriods < 2 →
  (∀ o tr', resolve_timeRule offset tr = Ok (o, tr') →
     match nPeriods with
     | None =>
         XDateRange_init fromDate toDate nPeriods offset tr = Raise TypeError
     | Some n =>
         XDateRange_init fromDate toDate nPeriods offset tr =
           (d ← radd_None (offset_mul (n - 1) o);
            Ok (mkXDateRange o tr' (date_sub d (offset_mul (n - 1) o)) d
                  (Some n))) ∧
         ∀ e, radd_None (offset_mul (n - 1) o) = Raise e →
              XDateRange_init fromDate toDate nPeriods offset tr = Raise e
     end) ∧
  ((∀ (o : O) d, radd_None o ≠ Ok d) →
   ¬ is_Ok (XDateRange_init fromDate toDate nPeriods offset tr)).
Proof.
  intros Hlt. split.
  - intros o tr' Hres. destruct nPeriods as [n|].
    + destruct fromDate, toDate; unfold n_given in Hlt; try lia.
      rewrite (XDateRange_init_periods_only _ _ _ _ _ Hres).
      split; [done|]. by intros e ->.
    + by apply (XDateRange_init_few _ _ _ _ o tr').
  - intros Hrefuse.
    destruct (resolve_timeRule offset tr) as [[o tr']| |] eqn:Hres.
    + destruct (XDateRange_init fromDate toDate nPeriods offset tr)
        as [x| |] eqn:Hx; [|intros []..].
      destruct (XDateRange_init_few_Ok _ _ _ _ _ _ _ _ Hres Hlt Hx)
        as (n & d & _ & Hd).
      by destruct (Hrefuse _ _ Hd).
    + unfold XDateRange_init. rewrite Hres. intros [].
    + unfold XDateRange_init. rewrite Hres. intros [].
Qed.

End XDateRange_init_facts.

(** ** Iteration *)

Section Iteration.
Context {O : Type} `{Offset O}.
Implicit Types (self : XDateRange O) (o offset : O) (f t d : datetime).

(** Iteration starts from [fromDate], normalized to midnight when the offset
    requires it; each turn yields the cursor and advances it by one offset
    step, as long as the cursor is not after [toDate]. The produced sequence
    is therefore the sequence of iterates of the step from the starting
    cursor that are not after [toDate]; it is empty exactly when [toDate] is
    before the starting cursor (before [fromDate] itself when the offset
    does not normalize). When every step moves the cursor forward the
    sequence is finite. *)
Lemma XDateRange_iteration self :
  XDateRange_iter self =
    (if normalizeFirst (x_offset self)
     then normalize_date (x_fromDate self) else x_fromDate self) ∧
  (∀ cur, XDateRange_next self cur =
     if bool_decide (cur ≤ x_toDate self)
     then Some (cur, date_add cur (x_offset self)) else None) ∧
  (∀ (fuel : nat) (l : list datetime),
     list_XDateRange fuel self = Ok l →
     (∀ (i : nat) d, l !! i = Some d →
        d = Nat.iter i (λ c, date_add c (x_offset self)) (XDateRange_iter self)
        ∧ d ≤ x_toDate self) ∧
     x_toDate self <
       Nat.iter (length l) (λ c, date_add c (x_offset self))
         (XDateRange_iter self) ∧
     (l = [] ↔ x_toDate self < XDateRange_iter self) ∧
     (normalizeFirst (x_offset self) = false →
      l = [] ↔ x_toDate self < x_fromDate self)) ∧
  ((∀ d, d < date_add d (x_offset self)) →
   ∃ l, list_XDateRange
          (S (Z.to_nat (x_toDate self - XDateRange_iter self + 1))) self
        = Ok l).
Proof.
  split; [done|]. split.
  { intros cur. unfold XDateRange_next, step.
    case_bool_decide; destruct (Z.leb_spec cur (x_toDate self)); done || lia. }
  split; [|apply list_XDateRange_terminates].
  intros fuel l Hrun. unfold list_XDateRange in Hrun.
  split; [exact (list_from_lookup _ _ _ _ Hrun)|].
  split; [exact (list_from_stop _ _ _ _ Hrun)|].
  split; [exact (list_from_empty_iff _ _ _ _ Hrun)|].
  intros Hnorm. rewrite (list_from_empty_iff _ _ _ _ Hrun).
  unfold XDateRange_iter. by rewrite Hnorm.
Qed.

(** The sequence depends on the offset and the two stored boundaries only. *)
Lemma list_XDateRange_boundaries (fuel : nat) self self' :
  x_offset self = x_offset self' →
  x_fromDate self = x_fromDate self' →
  x_toDate self = x_toDate self' →
  list_XDateRange fuel self = list_XDateRange fuel self'.
Proof.
  intros Ho Hf Ht. unfold list_XDateRange, XDateRange_iter.
  rewrite Ho, Hf. generalize (if normalizeFirst (x_offset self')
    then normalize_date (x_fromDate self') else x_fromDate self').
  induction fuel as [|fuel IH]; intros cur; [done|].
  cbn [list_from]. unfold XDateRange_next, step. rewrite Ht, Ho.
  destruct (cur <=? x_toDate self'); [|done]. by rewrite IH.
Qed.

(** With the three inputs given, the construction stores the two snapped
    boundaries, and the period count beside them. *)
Lemma XDateRange_init_three f t (n : Z) offset tr o tr' :
  resolve_timeRule offset tr = Ok (o, tr') →
  XDateRange_init (Some f) (Some t) (Some n) offset tr =
    Ok (mkXDateRange o tr' (snapped_from o f) (snapped_to o t) (Some n)).
Proof.
  intros Hres. rewrite (XDateRange_init_both _ _ _ _ _ _ _ Hres).
  unfold snapped_to. by destruct (onOffset o t).
Qed.

Lemma nPeriods_ignored (fuel : nat) f t (n1 n2 : Z) offset tr :
  (x ← XDateRange_init (Some f) (Some t) (Some n1) offset tr;
   list_XDateRange fuel x) =
  (x ← XDateRange_init (Some f) (Some t) (Some n2) offset tr;
   list_XDateRange fuel x).
Proof.
  destruct (resolve_timeRule offset tr) as [[o tr']| |] eqn:Hres.
  - rewrite !(XDateRange_init_three _ _ _ _ _ _ _ Hres). simpl.
    by apply list_XDateRange_boundaries.
  - unfold XDateRange_init. by rewrite Hres.
  - unfold XDateRange_init. by rewrite Hres.
Qed.

End Iteration.

(** ** Boundaries *)

Section Boundaries.
Context {O : Type} `{Offset O}.
Implicit Types (self x : XDateRange O) (o offset : O) (f t d : datetime).


(** C9. A construction that returns a generator, for an offset whose
    rounding keeps its contract ([RollLaws]). A [fromDate] off the grid is
    moved forward by one unit step: the stored [fromDate] is
    [rollforward fromDate], strictly after the given date, and the
    iteration starts there. When the stored [toDate] is not before it, the
    first turn of the loop yields it, and the sequence (finite when the
    step of the offset moves forward) begins with it; otherwise the
    sequence is empty. A [toDate] off the grid is moved backward by one unit
    step, to [rollback toDate], strictly before the given date; this is the
    stored [toDate], unless there is no period count and it is before the
    snapped [fromDate]: then the range is collapsed (period count 0,
    [toDate] derived again from [fromDate]). *)
Theorem XDateRange_init_snaps (fromDate toDate : option datetime)
    (nPeriods : option Z) offset tr o tr' x :
  resolve_timeRule offset tr = Ok (o, tr') →
  XDateRange_init fromDate toDate nPeriods offset tr = Ok x →
  RollLaws o →
  (∀ f, fromDate = Some f → onOffset o f = false →
     x_fromDate x = rollforward o f ∧ f < x_fromDate x ∧
     XDateRange_iter x = rollforward o f ∧
     (rollforward o f ≤ x_toDate x →
      XDateRange_next x (XDateRange_iter x)
      = Some (rollforward o f, date_add (rollforward o f) o) ∧
      ((∀ d, d < date_add d o) →
       ∃ l, list_XDateRange
              (S (Z.to_nat (x_toDate x - rollforward o f + 1))) x
            = Ok (rollforward o f :: l))) ∧
     (x_toDate x < rollforward o f →
      ∀ fuel : nat, list_XDateRange (S fuel) x = Ok []) ∧
     (∀ (fuel : nat) d l, list_XDateRange fuel x = Ok (d :: l) →
                          d = rollforward o f ∧ f < d)) ∧
  (∀ t, toDate = Some t → onOffset o t = false →
     rollback o t < t ∧
     match nPeriods, fromDate with
     | None, Some f =>
         if rollback o t <? snapped_from o f
         then x_nPeriods x = Some 0 ∧
              x_toDate x = date_add (snapped_from o f) (offset_mul (0 - 1) o)
         else x_nPeriods x = None ∧ x_toDate x = rollback o t
     | _, _ => x_nPeriods x = nPeriods ∧ x_toDate x = rollback o t
     end).
Proof.
  intros Hres Hx Hroll.
  pose proof (XDateRange_init_offset _ _ _ _ _ _ _ _ Hres Hx) as Ho.
  split.
  - intros f -> Hoff.
    pose proof (law_rollforward o Hroll f Hoff) as Hfw.
    pose proof (law_rollforward_lt o Hroll f Hoff) as Hlt.
    assert (x_fromDate x = rollforward o f) as Hfrom.
    { rewrite Hfw. destruct toDate as [t|], nPeriods as [n|].
      - rewrite (XDateRange_init_three _ _ _ _ _ _ _ Hres) in Hx.
        inversion Hx; subst; cbn. unfold snapped_from. by rewrite Hoff.
      - rewrite (XDateRange_init_both _ _ _ _ _ _ _ Hres) in Hx.
        destruct (onOffset o t); [|destruct (_ <? _)];
          inversion Hx; subst; cbn; unfold snapped_from; by rewrite Hoff.
      - rewrite (XDateRange_init_from _ _ _ _ _ _ Hres) in Hx.
        inversion Hx; subst; cbn. unfold snapped_from. by rewrite Hoff.
      - by rewrite (XDateRange_init_few _ _ _ _ _ _ Hres) in Hx. }
    assert (XDateRange_iter x = rollforward o f) as Hcur.
    { unfold XDateRange_iter. rewrite Ho, Hfrom.
      destruct (normalizeFirst o) eqn:Hn; [|done].
      rewrite Hfw. by apply (law_rollforward_midnight o Hroll). }
    split; [done|]. split; [lia|]. split; [done|].
    split; [|split].
    + intros Hle. split.
      * rewrite XDateRange_next_Some by lia.
        unfold step. by rewrite Hcur, Ho.
      * intros Hinc.
        destruct (list_from_terminates
                    (Z.to_nat (x_toDate x - rollforward o f + 1)) x
                    (XDateRange_iter x)) as [l Hl].
        { intros d. unfold step. rewrite Ho. apply Hinc. }
        { rewrite Hcur. lia. }
        unfold list_XDateRange. rewrite Hl.
        destruct l as [|d l].
        { apply list_from_stop in Hl. cbn in Hl. lia. }
        destruct (list_from_lookup _ _ _ _ Hl 0%nat d eq_refl) as [Hd _].
        cbn in Hd. rewrite Hcur in Hd. subst d. eauto.
    + intros Hgt fuel. apply list_from_nil. by rewrite Hcur.
    + intros fuel d l Hrun.
      destruct (list_from_lookup _ _ _ _ Hrun 0%nat d eq_refl) as [Hd _].
      cbn in Hd. rewrite Hcur in Hd. subst d. split; [done | lia].
  - intros t -> Hoff.
    pose proof (law_rollback o Hroll t Hoff) as Hbw.
    pose proof (law_rollback_lt o Hroll t Hoff) as Hlt.
    assert (snapped_to o t = rollback o t) as Hs
      by (unfold snapped_to; by rewrite Hoff).
    split; [lia|].
    destruct fromDate as [f|], nPeriods as [n|].
    + rewrite (XDateRange_init_three _ _ _ _ _ _ _ Hres) in Hx.
      inversion Hx; subst; cbn. by rewrite Hs.
    + rewrite (XDateRange_init_both _ _ _ _ _ _ _ Hres) in Hx.
      rewrite Hoff, Hs in Hx.
      destruct (rollback o t <? snapped_from o f); by inversion Hx.
    + rewrite (XDateRange_init_to _ _ _ _ _ _ Hres) in Hx.
      inversion Hx; subst; cbn. by rewrite Hs.
    + by rewrite (XDateRange_init_few _ _ _ _ _ _ Hres) in Hx.
Qed.

End Boundaries.

(** ** The grid *)

Section Grid.
Context {O : Type} `{Offset O}.
Implicit Types (self x : XDateRange O) (o offset : O) (f t d : datetime).

Lemma list_from_on_grid (fuel : nat) self cur (l : list datetime) :
  (∀ d, onOffset (x_offset self) d = true →
        onOffset (x_offset self) (step self d) = true) →
  onOffset (x_offset self) cur = true →
  list_from fuel self cur = Ok l →
  Forall (λ d, onOffset (x_offset self) d = true) l.
Proof.
  intros Hstep. revert cur l.
  induction fuel as [|fuel IH]; intros cur l Hcur Hrun; [done|].
  destruct (Z.le_gt_cases cur (x_toDate self)) as [Hle|Hgt].
  - rewrite list_from_cons in Hrun by done.
    apply bind_Ok in Hrun as (rest & Hrest & [= <-]).
    constructor; [done|]. eapply IH; [|done]. by apply Hstep.
  - rewrite list_from_nil in Hrun by lia. inversion Hrun. constructor.
Qed.

Lemma iter_step_lt self (k : nat) cur :
  (∀ d, d < step self d) → cur < Nat.iter (S k) (step self) cur.
Proof.
  intros Hinc. induction k as [|k IH]; cbn in *; [apply Hinc|].
  etrans; [exact IH | apply Hinc].
Qed.

Lemma list_from_increasing (fuel : nat) self cur (l : list datetime)
    (i j : nat) a b :
  (∀ d, d < step self d) →
  list_from fuel self cur = Ok l →
  (i < j)%nat → l !! i = Some a → l !! j = Some b → a < b.
Proof.
  intros Hinc Hrun Hij Ha Hb.
  destruct (list_from_lookup _ _ _ _ Hrun _ _ Ha) as [-> _].
  destruct (list_from_lookup _ _ _ _ Hrun _ _ Hb) as [-> _].
  replace j with (S (j - i - 1) + i)%nat by lia.
  rewrite Nat.iter_add. by apply iter_step_lt.
Qed.

(** Under the contract of the offset, the stored [fromDate] is on the grid. *)
Lemma XDateRange_init_from_on_grid (fromDate toDate : option datetime)
    (nPeriods : option Z) offset tr o tr' x :
  OffsetLaws o →
  resolve_timeRule offset tr = Ok (o, tr') →
  XDateRange_init fromDate toDate nPeriods offset tr = Ok x →
  onOffset o (x_fromDate x) = true.
Proof.
  intros Hlaws Hres Hx.
  assert (∀ d, onOffset o (snapped_from o d) = true) as Hsf.
  { intros d. unfold snapped_from. destruct (onOffset o d) eqn:Hd; [done|].
    by apply law_unit_add_on. }
  assert (∀ d, onOffset o (snapped_to o d) = true) as Hst.
  { intros d. unfold snapped_to. destruct (onOffset o d) eqn:Hd; [done|].
    by apply law_unit_sub_on. }
  destruct fromDate as [f|], toDate as [t|], nPeriods as [n|].
  - rewrite (XDateRange_init_three _ _ _ _ _ _ _ Hres) in Hx.
    inversion Hx; subst; cbn. apply Hsf.
  - rewrite (XDateRange_init_both _ _ _ _ _ _ _ Hres) in Hx.
    destruct (onOffset o t); [|destruct (_ <? _)];
      inversion Hx; subst; cbn; apply Hsf.
  - rewrite (XDateRange_init_from _ _ _ _ _ _ Hres) in Hx.
    inversion Hx; subst; cbn. apply Hsf.
  - by rewrite (XDateRange_init_few _ _ _ _ _ _ Hres) in Hx.
  - rewrite (XDateRange_init_to _ _ _ _ _ _ Hres) in Hx.
    inversion Hx; subst; cbn. by apply law_mul_sub_on.
  - by rewrite (XDateRange_init_few _ _ _ _ _ _ Hres) in Hx.
  - rewrite (XDateRange_init_periods_only _ _ _ _ _ Hres) in Hx.
    apply bind_Ok in Hx as (d & Hd & _).
    by destruct (law_radd_None o Hlaws _ _ Hd).
  - by rewrite (XDateRange_init_few _ _ _ _ _ _ Hres) in Hx.
Qed.

(** A generated range keeps the invariant, and the range materialized from
    the generator has the same elements. *)
Lemma XDateRange_grid_sequence (fromDate toDate : option datetime)
    (nPeriods : option Z) offset tr o tr' x (fuel : nat)
    (l : list datetime) :
  OffsetLaws o →
  resolve_timeRule offset tr = Ok (o, tr') →
  XDateRange_init fromDate toDate nPeriods offset tr = Ok x →
  list_XDateRange fuel x = Ok l →
  grid_sequence o l ∧
  ∃ r, materialize fuel fromDate toDate nPeriods offset tr = Ok r ∧
       r_values r = l.
Proof.
  intros Hlaws Hres Hx Hrun.
  pose proof (XDateRange_init_offset _ _ _ _ _ _ _ _ Hres Hx) as Ho.
  pose proof (XDateRange_init_from_on_grid _ _ _ _ _ _ _ _ Hlaws Hres Hx)
    as Hfrom.
  unfold list_XDateRange in Hrun.
  split; [split; [|split]|].
  - subst o. eapply list_from_on_grid; [| |exact Hrun].
    + intros d. apply law_step_on, Hlaws.
    + unfold XDateRange_iter.
      destruct (normalizeFirst (x_offset x)) eqn:Hn; [|done].
      by apply law_normalize_on.
  - intros i a b Ha Hb. subst o.
    exact (list_from_adjacent _ _ _ _ _ _ _ Hrun Ha Hb).
  - intros i j a b. eapply list_from_increasing; [|exact Hrun].
    intros d. subst o. apply law_step_lt, Hlaws.
  - unfold materialize. rewrite Hx. cbn. unfold list_XDateRange.
    rewrite Hrun. cbn. eauto.
Qed.

(** A slice without step keeps the invariant. *)
Lemma grid_sequence_slice o (l : list datetime) (i j : Z) :
  grid_sequence o l → grid_sequence o (ndarray_slice l i j).
Proof.
  intros (Hon & Hadj & Hinc). unfold ndarray_slice.
  set (k := Z.to_nat _). set (m := Z.to_nat _).
  assert (∀ (n : nat) a, take k (drop m l) !! n = Some a →
                         l !! (m + n)%nat = Some a) as Hl.
  { intros n a Hn. apply lookup_take_Some in Hn as [Hn _].
    by rewrite lookup_drop in Hn. }
  split; [|split].
  - by apply Forall_take, Forall_drop.
  - intros n a b Ha Hb. apply Hl in Ha, Hb.
    replace (m + S n)%nat with (S (m + n)) in Hb by lia. by eapply Hadj.
  - intros n n' a b Hlt Ha Hb. apply Hl in Ha, Hb.
    eapply (Hinc (m + n)%nat (m + n')%nat); [lia|done..].
Qed.

(** The canonical sequence of an offset keeps the invariant. *)
Lemma build_canonical_grid (fuel : nat) o (c : DateRange O) :
  OffsetLaws o → build_canonical fuel o = Ok c →
  grid_sequence o (r_values c) ∧ r_offset c = Some o.
Proof.
  intros Hlaws Hc. unfold build_canonical in Hc.
  apply bind_Ok in Hc as (x & Hx & Hc).
  apply bind_Ok in Hc as (l & Hl & [= <-]). cbn. split; [|done].
  by destruct (XDateRange_grid_sequence _ _ _ _ _ _ _ _ _ _ Hlaws
                 (resolve_timeRule_None o) Hx Hl) as [Hg _].
Qed.

(** A range materialized from a generator that was given no time rule
    carries the offset that generated it, and keeps the invariant. *)
Lemma materialize_grid (fuel : nat) (fromDate toDate : option datetime)
    (nPeriods : option Z) o (r : DateRange O) :
  OffsetLaws o →
  materialize fuel fromDate toDate nPeriods o None = Ok r →
  r_offset r = Some o ∧ grid_sequence o (r_values r).
Proof.
  intros Hlaws Hr. unfold materialize in Hr.
  apply bind_Ok in Hr as (x & Hx & Hr).
  apply bind_Ok in Hr as (l & Hl & [= <-]). cbn. split; [done|].
  by destruct (XDateRange_grid_sequence _ _ _ _ _ _ _ _ _ _ Hlaws
                 (resolve_timeRule_None o) Hx Hl) as [Hg _].
Qed.

(** A range that a cache lookup returns, on a cache built by such lookups,
    is a slice of the canonical sequence of the resolved offset: it carries
    that offset and keeps the invariant. *)
Lemma getCachedRange_grid (fuel : nat) (start end_ : option datetime)
    (periods : option Z) (offset : option O) tr
    (cache cache' : gmap O (DateRange O)) r o :
  OffsetLaws o →
  cache_built cache →
  resolve_offset offset tr = Ok o →
  getCachedRange fuel start end_ periods offset tr cache = (Ok r, cache') →
  grid_sequence o (r_values r) ∧ r_offset r = Some o ∧ cache_built cache'.
Proof.
  intros Hlaws Hwf Hres.
  unfold getCachedRange, mbind, M_bind, lift. rewrite Hres.
  unfold cached_canonical.
  destruct (cache !! o) as [c|] eqn:Hc.
  - destruct (index_slice o c start end_ periods) as [r'| |] eqn:Hr;
      [|done..].
    intros [= <- <-]. destruct (Hwf o c Hc) as [fuel' Hbuild].
    destruct (build_canonical_grid _ _ _ Hlaws Hbuild) as [Hg Ho].
    unfold index_slice in Hr.
    apply bind_Ok in Hr as ([a b] & _ & [= <-]). cbn.
    split; [by apply grid_sequence_slice|done].
  - destruct (build_canonical fuel o) as [c| |] eqn:Hbuild; [|done..].
    destruct (index_slice o c start end_ periods) as [r'| |] eqn:Hr;
      [|done..].
    intros [= <- <-].
    destruct (build_canonical_grid _ _ _ Hlaws Hbuild) as [Hg Ho].
    unfold index_slice in Hr.
    apply bind_Ok in Hr as ([a b] & _ & [= <-]). cbn.
    split; [by apply grid_sequence_slice|]. split; [done|].
    intros o' c'. destruct (decide (o' = o)) as [->|Hne].
    + rewrite lookup_insert_eq. intros [= <-]. eauto.
    + rewrite lookup_insert_ne by done. apply Hwf.
Qed.

(** For an offset whose step moves forward, the canonical sequence is
    built when the fuel is enough. *)
Lemma build_canonical_terminates o :
  (∀ d, d < date_add d o) →
  ∃ (fuel : nat) (c : DateRange O), build_canonical fuel o = Ok c.
Proof.
  intros Hinc. unfold build_canonical.
  assert (∃ x, XDateRange_init (Some CACHE_START) (Some CACHE_END) None o None
               = Ok x ∧ x_offset x = o) as (x & Hx & Ho).
  { rewrite (XDateRange_init_both _ _ _ _ _ _ _ (resolve_timeRule_None o)).
    destruct (onOffset o CACHE_END); [eauto|].
    destruct (_ <? _); eauto. }
  destruct (list_XDateRange_terminates x) as [l Hl].
  { intros d. unfold step. rewrite Ho. apply Hinc. }
  eexists _, _. rewrite Hx. cbn [mbind result_bind]. rewrite Hl. reflexivity.
Qed.

End Grid.

(** ** Business days *)

Section Business_days.
Import Datetools.

Lemma weekday_range d : 0 ≤ weekday d < 7.
Proof. unfold weekday. apply Z.mod_pos_bound. lia. Qed.

Lemma weekday_shift d k :
  weekday (d + k * us_per_day) = (weekday d + k) `mod` 7.
Proof.
  unfold weekday. rewrite Z.div_add by done.
  rewrite Zplus_mod_idemp_l. f_equal. lia.
Qed.

Lemma weekday_normalize d : weekday (normalize_date d) = weekday d.
Proof.
  unfold weekday, normalize_date, us_per_day. f_equal. f_equal.
  Z.div_mod_to_equations. lia.
Qed.

Lemma normalize_date_bounds d : d - us_per_day < normalize_date d ≤ d.
Proof.
  unfold normalize_date, us_per_day. Z.div_mod_to_equations. lia.
Qed.

(** A business-day step ends on a weekday, at least a day away. *)
Lemma bday_step_weekday k d :
  k = 1 ∨ k = -1 → (weekday (bday_step k d) <? 5) = true.
Proof.
  intros Hk. unfold bday_step.
  pose proof (weekday_range d) as Hw.
  destruct (Z.ltb_spec (weekday (d + k * us_per_day)) 5) as [H1|H1];
    [by apply Z.ltb_lt|].
  destruct (Z.ltb_spec (weekday (d + k * us_per_day + k * us_per_day)) 5)
    as [H2|H2]; [by apply Z.ltb_lt|].
  apply Z.ltb_lt. rewrite !weekday_shift in *.
  generalize dependent (weekday d). intros w Hw H1 H2.
  destruct Hk as [-> | ->]; Z.div_mod_to_equations; lia.
Qed.

Lemma bday_step_forward d : d + us_per_day ≤ bday_step 1 d.
Proof. unfold bday_step, us_per_day. repeat destruct (_ <? _); lia. Qed.

Lemma bday_step_backward d : bday_step (-1) d ≤ d - us_per_day.
Proof. unfold bday_step, us_per_day. repeat destruct (_ <? _); lia. Qed.

Lemma BDay_apply_weekday n d : (weekday (BDay_apply n d) <? 5) = true.
Proof.
  unfold BDay_apply. rewrite weekday_normalize.
  set (n' := if (n =? 0) && (4 <? weekday d) then 1 else n).
  destruct (Z.to_nat (Z.abs n')) as [|k] eqn:Hk.
  - assert (n' = 0) as Hn' by lia. cbn.
    unfold n' in Hn'. apply Z.ltb_lt.
    destruct (Z.eqb_spec n 0), (Z.ltb_spec 4 (weekday d)); cbn in Hn'; lia.
  - cbn [Nat.iter]. apply bday_step_weekday.
    assert (n' ≠ 0) by lia. lia.
Qed.

Lemma BDay_apply_1_lt d : d < BDay_apply 1 d.
Proof.
  change (BDay_apply 1 d) with (normalize_date (bday_step 1 d)).
  pose proof (bday_step_forward d).
  pose proof (normalize_date_bounds (bday_step 1 d)). lia.
Qed.

(** The business day keeps the contract of an offset. *)
Lemma BDay_laws : OffsetLaws (BDay 1).
Proof.
  split; cbn; intros.
  - apply BDay_apply_weekday.
  - apply BDay_apply_1_lt.
  - apply BDay_apply_weekday.
  - apply BDay_apply_weekday.
  - apply BDay_apply_weekday.
  - by rewrite weekday_normalize.
  - done.
Qed.

(** Every date is on the grid of the calendar day, which keeps the
    contract of an offset. *)
Lemma DateOffset_on_offset n d : on_offset (DateOffset n) d = true.
Proof. unfold on_offset, apply. cbn. apply Z.eqb_eq. lia. Qed.

Lemma DateOffset_laws : OffsetLaws (DateOffset 1).
Proof.
  split; cbn; intros; try apply DateOffset_on_offset; try done.
  unfold us_per_day. lia.
Qed.

(** Normalization and whole days. *)
Lemma normalize_date_idemp d : normalize_date (normalize_date d) = normalize_date d.
Proof. unfold normalize_date, us_per_day. Z.div_mod_to_equations. lia. Qed.

Lemma normalize_date_shift d k :
  normalize_date (d + k * us_per_day) = normalize_date d + k * us_per_day.
Proof. unfold normalize_date. rewrite Z.mod_add by done. lia. Qed.

(** A business-day step moves a date by whole days, the same number for
    two dates of the same day of the week. *)
Lemma bday_step_days k d d' :
  weekday d = weekday d' →
  ∃ c, bday_step k d = d + c * us_per_day ∧
       bday_step k d' = d' + c * us_per_day.
Proof.
  intros Hw. unfold bday_step. rewrite !weekday_shift, Hw.
  destruct (_ <? 5); [exists k; split; lia|].
  destruct (_ <? 5); [exists (2 * k) | exists (3 * k)]; split; lia.
Qed.

Lemma bday_step_normalize k d :
  normalize_date (bday_step k (normalize_date d))
  = normalize_date (bday_step k d).
Proof.
  destruct (bday_step_days k (normalize_date d) d (weekday_normalize d))
    as (c & -> & ->).
  by rewrite !normalize_date_shift, normalize_date_idemp.
Qed.

Lemma BDay_apply_normalize k d :
  k = 1 ∨ k = -1 → BDay_apply k (normalize_date d) = BDay_apply k d.
Proof.
  intros [-> | ->].
  - change (normalize_date (bday_step 1 (normalize_date d))
            = normalize_date (bday_step 1 d)). apply bday_step_normalize.
  - change (normalize_date (bday_step (-1) (normalize_date d))
            = normalize_date (bday_step (-1) d)). apply bday_step_normalize.
Qed.

Lemma BDay_apply_m1_lt d : BDay_apply (-1) d < d.
Proof.
  change (BDay_apply (-1) d) with (normalize_date (bday_step (-1) d)).
  pose proof (bday_step_backward d).
  pose proof (normalize_date_bounds (bday_step (-1) d)).
  unfold us_per_day in *. lia.
Qed.

(** The rounding of the business day keeps its contract. *)
Lemma BDay_roll_laws : RollLaws (BDay 1).
Proof.
  split; cbn; intros d.
  - intros Hoff. unfold roll_forward. cbn.
    rewrite weekday_normalize, Hoff. by apply BDay_apply_normalize; left.
  - intros Hoff. unfold roll_back. cbn.
    rewrite weekday_normalize, Hoff. by apply BDay_apply_normalize; right.
  - intros _. apply BDay_apply_1_lt.
  - intros _. apply BDay_apply_m1_lt.
  - intros _ _. apply normalize_date_idemp.
Qed.

Lemma resolve_timeRule_BDay :
  resolve_timeRule (BDay 1) None = Ok (BDay 1, Some "WEEKDAY"%string).
Proof. vm_compute. reflexivity. Qed.

(** The example of the specification: five business days from Friday
    2021-01-01. *)
Example five_business_days :
  (x ← XDateRange_init (Some (mkdate 2021 1 1)) None (Some 5) (BDay 1) None;
   list_XDateRange 10 x)
  = Ok [mkdate 2021 1 1; mkdate 2021 1 4; mkdate 2021 1 5; mkdate 2021 1 6;
        mkdate 2021 1 7].
Proof. vm_compute. reflexivity. Qed.

(** Five business days from Saturday 2021-01-02 keep the invariant. *)
Example business_days_on_grid :
  grid_sequence (BDay 1)
    [mkdate 2021 1 4; mkdate 2021 1 5; mkdate 2021 1 6; mkdate 2021 1 7;
     mkdate 2021 1 8].
Proof.
  eapply (XDateRange_grid_sequence (Some (mkdate 2021 1 2)) None (Some 5)
            (BDay 1) None (BDay 1) (Some "WEEKDAY"%string) _ 10%nat).
  - exact BDay_laws.
  - exact resolve_timeRule_BDay.
  - vm_compute. reflexivity.
  - vm_compute. reflexivity.
Qed.

(** C4, on inputs with the business day: with a period count of 5 only, the
    construction raises the exception of the business day; with [fromDate]
    only, [TypeError]. *)
Lemma XDateRange_init_insufficient_witness :
  n_given None None (Some 5) < 2 ∧
  XDateRange_init None None (Some 5) (BDay 1) None
  = Raise (Exception
      "Only know how to combine business day with datetime or timedelta!") ∧
  ¬ is_Ok (XDateRange_init None None (Some 5) (BDay 1) None) ∧
  n_given (Some (mkdate 2021 1 4)) None None < 2 ∧
  XDateRange_init (Some (mkdate 2021 1 4)) None None (BDay 1) None
  = Raise TypeError.
Proof.
  assert (n_given None None (Some 5) < 2) as Hlt
    by (vm_compute; reflexivity).
  assert (n_given (Some (mkdate 2021 1 4)) None None < 2) as Hlt'
    by (vm_compute; reflexivity).
  destruct (XDateRange_init_insufficient None None (Some 5) (BDay 1) None Hlt)
    as [Hraise Hno].
  destruct (Hraise (BDay 1) (Some "WEEKDAY"%string) resolve_timeRule_BDay)
    as [_ He].
  split; [exact Hlt|]. split; [exact (He _ eq_refl)|].
  split; [|split; [exact Hlt'|]].
  - apply Hno. intros o d. destruct o; discriminate.
  - exact (proj1 (XDateRange_init_insufficient (Some (mkdate 2021 1 4)) None
                    None (BDay 1) None Hlt') (BDay 1) (Some "WEEKDAY"%string)
             resolve_timeRule_BDay).
Defined.



(** C6. The iteration starts from [fromDate], normalized to midnight when
    the offset requires it; each turn yields the cursor and advances it by
    one offset step, as long as the cursor is not after [toDate]; the
    sequence is empty exactly when [toDate] is before the starting cursor.
    On the input [fromDate] = Monday 2021-01-04 10:00, [toDate] = the same
    day 08:00, with the business day: both dates are on the grid and are
    stored as given, [toDate] is before [fromDate], and yet the sequence is
    not empty: it holds Monday 2021-01-04 00:00, a date before [fromDate],
    against the note of the class ([fromDate <= date <= toDate]). *)
Theorem XDateRange_iter_before_fromDate :
  (∀ (O : Type) (E : EqDecision O) (C : Countable O) (Off : Offset O)
     (self : XDateRange O),
     XDateRange_iter self =
       (if normalizeFirst (x_offset self)
        then normalize_date (x_fromDate self) else x_fromDate self) ∧
     (∀ cur, XDateRange_next self cur =
        if bool_decide (cur ≤ x_toDate self)
        then Some (cur, date_add cur (x_offset self)) else None) ∧
     (∀ (fuel : nat) (l : list datetime),
        list_XDateRange fuel self = Ok l →
        l = [] ↔ x_toDate self < XDateRange_iter self)) ∧
  ∃ x, XDateRange_init (Some (mkdatetime 2021 1 4 10))
         (Some (mkdatetime 2021 1 4 8)) None (BDay 1) None = Ok x ∧
       x_fromDate x = mkdatetime 2021 1 4 10 ∧
       x_toDate x = mkdatetime 2021 1 4 8 ∧
       x_toDate x < x_fromDate x ∧
       list_XDateRange 5 x = Ok [mkdate 2021 1 4] ∧
       mkdate 2021 1 4 < x_fromDate x.
Proof.
  split.
  - intros O E C Off self.
    destruct (XDateRange_iteration self) as (Hiter & Hnext & Hlist & _).
    split; [exact Hiter|]. split; [exact Hnext|].
    intros fuel l Hl. by destruct (Hlist fuel l Hl) as (_ & _ & Hempty & _).
  - eexists. split; [vm_compute; reflexivity|].
    split; [vm_compute; reflexivity|]. split; [vm_compute; reflexivity|].
    split; [vm_compute; reflexivity|]. split; vm_compute; reflexivity.
Qed.

(** C7. For an offset that keeps its contract ([OffsetLaws]), every
    generated range keeps the invariant under the offset that generated it:
    its elements are on the grid, each is its predecessor plus one step, and
    they are strictly increasing. So does a range materialized without a
    time rule, and a range returned by a cache lookup, and both carry that
    offset. But a range materialized with a time rule carries the offset
    that was passed (line 158) and not the offset of the rule, which
    generated its dates: with [fromDate] = Friday 2021-01-08, [periods] = 2,
    the calendar-day offset and the rule of the business day, the range
    holds Friday 2021-01-08 and Monday 2021-01-11 and carries the calendar
    day, under which the date one step after Friday is Saturday. The result
    of a shift of a calendar-day range breaks the invariant in the same
    way. *)
Theorem materialized_range_off_grid :
  (∀ (O : Type) (E : EqDecision O) (C : Countable O) (Off : Offset O) (o : O),
     OffsetLaws o →
     (∀ (fromDate toDate : option datetime) (nPeriods : option Z) offset tr
        tr' x (fuel : nat) (l : list datetime),
        resolve_timeRule offset tr = Ok (o, tr') →
        XDateRange_init fromDate toDate nPeriods offset tr = Ok x →
        list_XDateRange fuel x = Ok l →
        grid_sequence o l) ∧
     (∀ (fuel : nat) (fromDate toDate : option datetime) (nPeriods : option Z)
        (r : DateRange O),
        materialize fuel fromDate toDate nPeriods o None = Ok r →
        r_offset r = Some o ∧ grid_sequence o (r_values r)) ∧
     (∀ (fuel : nat) (start end_ : option datetime) (periods : option Z)
        (offset : option O) tr (cache cache' : gmap O (DateRange O)) r,
        cache_built cache →
        resolve_offset offset tr = Ok o →
        getCachedRange fuel start end_ periods offset tr cache
        = (Ok r, cache') →
        r_offset r = Some o ∧ grid_sequence o (r_values r))) ∧
  OffsetLaws (DateOffset 1) ∧
  materialize 10 (Some (mkdate 2021 1 8)) None (Some 2) (DateOffset 1)
    (Some "WEEKDAY"%string)
  = Ok (mkDateRange [mkdate 2021 1 8; mkdate 2021 1 11]
          (Some (DateOffset 1)) None) ∧
  fst (DateRange_new 10 (Some (mkdate 2021 1 8)) None (Some 2) (DateOffset 1)
         (Some "WEEKDAY"%string) no_kwds ∅)
  = Ok (mkDateRange [mkdate 2021 1 8; mkdate 2021 1 11]
          (Some (DateOffset 1)) None) ∧
  fst (shift 10
         (mkDateRange [mkdate 2021 1 7; mkdate 2021 1 8]
            (Some (DateOffset 1)) None) 1 ∅)
  = Ok (mkDateRange [mkdate 2021 1 8; mkdate 2021 1 11]
          (Some (DateOffset 1)) None) ∧
  date_add (mkdate 2021 1 8) (DateOffset 1) = mkdate 2021 1 9 ∧
  ¬ grid_sequence (DateOffset 1) [mkdate 2021 1 8; mkdate 2021 1 11].
Proof.
  split.
  { intros O E C Off o Hlaws. split; [|split].
    - intros fromDate toDate nPeriods offset tr tr' x fuel l Hres Hx Hl.
      by destruct (XDateRange_grid_sequence _ _ _ _ _ _ _ _ _ _ Hlaws
                     Hres Hx Hl) as [Hg _].
    - intros fuel fromDate toDate nPeriods r Hr.
      by apply (materialize_grid fuel fromDate toDate nPeriods).
    - intros fuel start end_ periods offset tr cache cache' r Hwf Hres Hr.
      destruct (getCachedRange_grid _ _ _ _ _ _ _ _ _ _ Hlaws Hwf Hres Hr)
        as (Hg & Ho & _).
      by split. }
  split; [exact DateOffset_laws|].
  split; [vm_compute; reflexivity|]. split; [vm_compute; reflexivity|].
  split; [vm_compute; reflexivity|]. split; [vm_compute; reflexivity|].
  intros (_ & Hadj & _).
  specialize (Hadj 0%nat _ _ eq_refl eq_refl).
  vm_compute in Hadj. discriminate Hadj.
Qed.

(** C9, on the input of the specification: a business-day range from
    Saturday 2021-01-02 starts on Monday 2021-01-04, which the first turn
    of the loop yields; with Sunday 2021-01-10 as [toDate] it ends on Friday
    2021-01-08. *)
Lemma XDateRange_init_snaps_witness :
  ∃ x, XDateRange_init (Some (mkdate 2021 1 2)) (Some (mkdate 2021 1 10)) None
         (BDay 1) None = Ok x ∧
       onOffset (BDay 1) (mkdate 2021 1 2) = false ∧
       onOffset (BDay 1) (mkdate 2021 1 10) = false ∧
       x_fromDate x = mkdate 2021 1 4 ∧
       mkdate 2021 1 2 < x_fromDate x ∧
       XDateRange_next x (XDateRange_iter x)
       = Some (mkdate 2021 1 4, mkdate 2021 1 5) ∧
       list_XDateRange 10 x
       = Ok [mkdate 2021 1 4; mkdate 2021 1 5; mkdate 2021 1 6;
             mkdate 2021 1 7; mkdate 2021 1 8] ∧
       x_toDate x = mkdate 2021 1 8 ∧
       x_toDate x < mkdate 2021 1 10.
Proof.
  eexists. split; [vm_compute; reflexivity|].
  split; [vm_compute; reflexivity|]. split; [vm_compute; reflexivity|].
  match goal with
  | |- x_fromDate ?x = _ ∧ _ =>
      destruct (XDateRange_init_snaps (Some (mkdate 2021 1 2))
                  (Some (mkdate 2021 1 10)) None (BDay 1) None (BDay 1)
                  (Some "WEEKDAY"%string) x resolve_timeRule_BDay)
        as [Hf Ht];
        [vm_compute; reflexivity | exact BDay_roll_laws |]
  end.
  destruct (Hf (mkdate 2021 1 2) eq_refl) as (Hfrom & Hlt & _ & Hfirst & _).
  { vm_compute. reflexivity. }
  destruct Hfirst as [Hnext _].
  { vm_compute. discriminate. }
  destruct (Ht (mkdate 2021 1 10) eq_refl) as (Hback & Hto).
  { vm_compute. reflexivity. }
  change (rollback (BDay 1) (mkdate 2021 1 10)
          <? snapped_from (BDay 1) (mkdate 2021 1 2)) with false in Hto.
  destruct Hto as [_ Hto].
  split; [rewrite Hfrom; vm_compute; reflexivity|].
  split; [exact Hlt|].
  split; [rewrite Hnext; vm_compute; reflexivity|].
  split; [vm_compute; reflexivity|].
  split; [rewrite Hto; vm_compute; reflexivity|].
  rewrite Hto. exact Hback.
Defined.

End Business_days.

(** C10. With [fromDate], [toDate] and [nPeriods] all given, the
    construction stores the two snapped boundaries; the sequence is a
    function of the offset and these two boundaries, the same whatever the
    period count, which the iteration never reads. The number of elements
    may differ from the period count: Monday 2021-01-04 to Friday 2021-01-08
    with a period count of 2 gives five dates. *)
Theorem nPeriods_not_consulted :
  (∀ (O : Type) (E : EqDecision O) (C : Countable O) (Off : Offset O)
     (fuel : nat) (f t : datetime) (n1 n2 : Z) (offset : O)
     (tr : option string),
     (x ← XDateRange_init (Some f) (Some t) (Some n1) offset tr;
      list_XDateRange fuel x) =
     (x ← XDateRange_init (Some f) (Some t) (Some n2) offset tr;
      list_XDateRange fuel x)) ∧
  (∀ (O : Type) (E : EqDecision O) (C : Countable O) (Off : Offset O)
     (fuel : nat) (x : XDateRange O) (n : option Z),
     list_XDateRange fuel x =
     list_XDateRange fuel
       (mkXDateRange (x_offset x) (x_timeRule x) (x_fromDate x) (x_toDate x)
          n)) ∧
  (x ← XDateRange_init (Some (mkdate 2021 1 4)) (Some (mkdate 2021 1 8))
         (Some 2) (Datetools.BDay 1) None;
   l ← list_XDateRange 10 x; Ok (x_nPeriods x, length l))
  = Ok (Some 2, 5%nat).
Proof.
  split; [|split].
  - intros. apply nPeriods_ignored.
  - intros. by apply list_XDateRange_boundaries.
  - vm_compute. reflexivity.
Qed.

(** ** Slices *)

Section Slices.
Context {O : Type} `{Offset O}.
Implicit Types (a : list datetime) (r self : DateRange O).

Lemma ndarray_slice_in_range a (i j : Z) :
  0 ≤ i ≤ j → j ≤ Z.of_nat (length a) →
  ndarray_slice a i j = slice_of a i j.
Proof.
  intros Hij Hj. unfold ndarray_slice, slice_of, slice_bound.
  destruct (Z.ltb_spec i 0), (Z.ltb_spec j 0); try lia.
  by rewrite !Z.min_l by lia.
Qed.

Lemma slice_expr_values_in_range self (i j : Z) :
  0 ≤ i ≤ j → j ≤ len self →
  r_values (slice_expr self (Some i) (Some j)) = slice_of (r_values self) i j.
Proof.
  intros Hij Hj. unfold slice_expr, DateRange_getslice. cbn.
  destruct (Z.ltb_spec i 0), (Z.ltb_spec j 0); try lia.
  by apply ndarray_slice_in_range.
Qed.

(** The elements of a slice are the elements at its positions. *)
Lemma slice_of_lookup a (lo hi : Z) (k : nat) :
  0 ≤ lo → (Z.of_nat k < hi - lo) →
  slice_of a lo hi !! k = a !! (Z.to_nat lo + k)%nat.
Proof.
  intros Hlo Hk. unfold slice_of.
  rewrite lookup_take_lt by lia. by rewrite lookup_drop.
Qed.

Lemma slice_expr_offset self (i j : option Z) :
  r_offset (slice_expr self i j) = r_offset self.
Proof. done. Qed.

(** A position given by [indexMap] holds the date. *)
Lemma indexMap_Some a (d : datetime) (pos : Z) :
  indexMap a d = Some pos → 0 ≤ pos ∧ a !! Z.to_nat pos = Some d.
Proof.
  revert pos. induction a as [|x a IH]; intros pos; [done|]. cbn.
  destruct (Z.eqb_spec x d) as [->|Hne].
  - intros [= <-]. done.
  - destruct (indexMap a d) as [p|] eqn:Hp; [|done]. cbn.
    intros [= <-]. destruct (IH p eq_refl) as [Hp0 Hl]. split; [lia|].
    replace (Z.to_nat (Z.succ p)) with (S (Z.to_nat p)) by lia. done.
Qed.

Lemma indexMap_None a (d : datetime) :
  d ∉ a → indexMap a d = None.
Proof.
  intros Hd. destruct (indexMap a d) as [pos|] eqn:Hpos; [|done].
  destruct (indexMap_Some _ _ _ Hpos) as [_ Hl].
  destruct Hd. by eapply list_elem_of_lookup_2.
Qed.

End Slices.

(** ** The cache *)

Section Cache.
Context {O : Type} `{Offset O}.
Implicit Types (o offset : O) (cache : gmap O (DateRange O))
  (c canon r : DateRange O) (q : request O).

Lemma cached_canonical_hit (fuel : nat) o cache c :
  cache !! o = Some c → cached_canonical fuel o cache = (Ok c, cache).
Proof. intros Hc. unfold cached_canonical. by rewrite Hc. Qed.

Lemma cached_canonical_miss (fuel : nat) o cache :
  cache !! o = None →
  cached_canonical fuel o cache =
    match build_canonical fuel o with
    | Ok c => (Ok c, <[o := c]> cache)
    | Raise e => (Raise e, cache)
    | Diverge => (Diverge, cache)
    end.
Proof. intros Hc. unfold cached_canonical. by rewrite Hc. Qed.

(** The canonical sequence that a lookup returns is the entry of the offset
    in the cache afterwards. *)
Lemma cached_canonical_Ok (fuel : nat) o cache cache' c :
  cached_canonical fuel o cache = (Ok c, cache') → cache' !! o = Some c.
Proof.
  unfold cached_canonical. destruct (cache !! o) as [c0|] eqn:Hc.
  - by intros [= <- <-].
  - destruct (build_canonical fuel o); intros [= <- <-].
    apply lookup_insert_eq.
Qed.

(** An entry of the cache is never changed or removed. *)
Lemma cached_canonical_preserves (fuel : nat) o cache o' c' :
  cache !! o' = Some c' →
  snd (cached_canonical fuel o cache) !! o' = Some c'.
Proof.
  intros Hc'. unfold cached_canonical.
  destruct (cache !! o) as [c0|] eqn:Hc; [done|].
  destruct (build_canonical fuel o); cbn; try done.
  rewrite lookup_insert_ne; [done|]. intros ->. congruence.
Qed.

Lemma getCachedRange_unfold (fuel : nat) (start end_ : option datetime)
    (periods : option Z) (offset : option O) (tr : option string) o cache :
  resolve_offset offset tr = Ok o →
  getCachedRange fuel start end_ periods offset tr cache =
    match cached_canonical fuel o cache with
    | (Ok c, cache') => (index_slice o c start end_ periods, cache')
    | (Raise e, cache') => (Raise e, cache')
    | (Diverge, cache') => (Diverge, cache')
    end.
Proof.
  intros Hres. unfold getCachedRange, mbind, M_bind, lift. rewrite Hres.
  destruct (cached_canonical fuel o cache) as [[c|e|] cache']; try done.
Qed.

Lemma getCachedRange_preserves (fuel : nat) (start end_ : option datetime)
    (periods : option Z) (offset : option O) (tr : option string) cache o' c' :
  cache !! o' = Some c' →
  snd (getCachedRange fuel start end_ periods offset tr cache) !! o' = Some c'.
Proof.
  intros Hc'. destruct (resolve_offset offset tr) as [o|e|] eqn:Hres.
  - rewrite (getCachedRange_unfold _ _ _ _ _ _ _ _ Hres).
    pose proof (cached_canonical_preserves fuel o cache o' c' Hc') as Hp.
    by destruct (cached_canonical fuel o cache) as [[c|e|] cache'].
  - unfold getCachedRange, mbind, M_bind, lift. by rewrite Hres.
  - unfold getCachedRange, mbind, M_bind, lift. by rewrite Hres.
Qed.

Lemma run_request_preserves (fuel : nat) q cache o' c' :
  cache !! o' = Some c' →
  snd (run_request fuel q cache) !! o' = Some c'.
Proof.
  intros Hc'. unfold run_request, DateRange_new.
  destruct (kw_index (q_kwds q)); [done|].
  destruct (cache_path _ _ _); [|done].
  by apply getCachedRange_preserves.
Qed.

Lemma run_requests_preserves (fuel : nat) (qs : list (request O)) cache o' c' :
  cache !! o' = Some c' → run_requests fuel qs cache !! o' = Some c'.
Proof.
  revert cache. induction qs as [|q qs IH]; intros cache Hc'; [done|].
  cbn. by apply IH, run_request_preserves.
Qed.

(** A cacheable request is a cache lookup. *)
Lemma run_request_cacheable (fuel : nat) q o cache :
  cacheable q o →
  run_request fuel q cache =
    match cached_canonical fuel o cache with
    | (Ok c, cache') =>
        (index_slice o c
           (boundary_arg (q_fromDate q) (kw_begin (q_kwds q)))
           (boundary_arg (q_toDate q) (kw_end (q_kwds q)))
           (periods_arg (q_periods q) (kw_nPeriods (q_kwds q))), cache')
    | (Raise e, cache') => (Raise e, cache')
    | (Diverge, cache') => (Diverge, cache')
    end.
Proof.
  intros (Hidx & Hpath & Hres). unfold run_request, DateRange_new.
  rewrite Hidx, Hpath. by apply getCachedRange_unfold.
Qed.

(** With both boundaries given the slice does not depend on the period
    count. *)
Lemma index_slice_both o c (s e : datetime) (p p' : option Z) :
  index_slice o c (Some s) (Some e) p = index_slice o c (Some s) (Some e) p'.
Proof. done. Qed.

Lemma cache_path_boundaries (fromDate toDate : option datetime) o :
  cache_path fromDate toDate o = true →
  ∃ f t, fromDate = Some f ∧ toDate = Some t ∧
         CACHE_START < f ∧ t < CACHE_END ∧
         isAnchored o = true ∧ isTick o = false.
Proof.
  unfold cache_path, useCache. intros Hp.
  apply andb_prop in Hp as [Hp Htick]. apply andb_prop in Hp as [Hp Hanch].
  apply andb_prop in Hp as [Hf Ht].
  destruct fromDate as [f|], toDate as [t|]; try done.
  exists f, t. repeat split; try done; try lia.
  by destruct (isTick o).
Qed.

End Cache.

(** ** Cache lookups *)

Section Lookup.
Context {O : Type} `{Offset O}.
Implicit Types (o : O) (cache : gmap O (DateRange O)) (canon : DateRange O).

Lemma index_slice_spec o canon (start end_ : option datetime)
    (periods : option Z) :
  match spec_slice_locs o (r_values canon) start end_ periods with
  | Some (a, b) =>
      index_slice o canon start end_ periods =
        Ok (set_parent (slice_expr canon (Some a) (Some b)) (Some canon))
  | None => is_Raise (index_slice o canon start end_ periods)
  end.
Proof.
  unfold spec_slice_locs, index_slice, slice_locs, indexMap_get.
  destruct start as [s|], end_ as [e|], periods as [p|]; cbn; try done.
  - destruct (indexMap (r_values canon) (rollforward o s)); cbn; [|done].
    by destruct (indexMap (r_values canon) (rollback o e)).
  - destruct (indexMap (r_values canon) (rollforward o s)); cbn; [|done].
    by destruct (indexMap (r_values canon) (rollback o e)).
  - by destruct (indexMap (r_values canon) (rollforward o s)).
  - by destruct (indexMap (r_values canon) (rollforward o s)).
  - by destruct (indexMap (r_values canon) (rollback o e)).
Qed.

(** C2. A lookup with a resolvable offset, on the canonical sequence of the
    offset (cached, or built by this lookup): when the positions that the
    specification names exist ([spec_slice_locs]: only [end] and a period
    count, only [start] and a period count, or both boundaries), the lookup
    returns the slice of the canonical sequence between them, with the
    offset of the canonical sequence and the canonical sequence as parent,
    and the canonical sequence is the entry of the offset in the cache; when
    the bounds are within the sequence the elements are those at the
    positions from the first bound up to the second. Otherwise the lookup
    raises. *)
Theorem getCachedRange_slice (fuel : nat) (start end_ : option datetime)
    (periods : option Z) (offset : option O) (tr : option string)
    o cache cache' canon :
  resolve_offset offset tr = Ok o →
  cached_canonical fuel o cache = (Ok canon, cache') →
  cache' !! o = Some canon ∧
  match spec_slice_locs o (r_values canon) start end_ periods with
  | Some (a, b) =>
      ∃ r, getCachedRange fuel start end_ periods offset tr cache
           = (Ok r, cache') ∧
           r_parent r = Some canon ∧
           r_offset r = r_offset canon ∧
           r_values r = r_values (slice_expr canon (Some a) (Some b)) ∧
           (0 ≤ a ≤ b → b ≤ len canon →
            r_values r = slice_of (r_values canon) a b)
  | None =>
      is_Raise (fst (getCachedRange fuel start end_ periods offset tr cache))
  end.
Proof.
  intros Hres Hcanon.
  split; [by eapply cached_canonical_Ok|].
  rewrite (getCachedRange_unfold _ _ _ _ _ _ _ _ Hres), Hcanon.
  pose proof (index_slice_spec o canon start end_ periods) as Hspec.
  destruct (spec_slice_locs o (r_values canon) start end_ periods)
    as [[a b]|]; [|done].
  eexists. split; [by rewrite Hspec|]. cbn. repeat split.
  intros Hab Hb. by apply (slice_expr_values_in_range canon a b).
Qed.

End Lookup.

(** ** One canonical sequence per offset *)

Section Built_once.
Context {O : Type} `{Offset O}.
Implicit Types (o : O) (cache : gmap O (DateRange O)) (c r : DateRange O)
  (q : request O) (qs : list (request O)).

(** A cacheable request on a cache that has the canonical sequence of its
    offset does not run the generator (no fuel is used) and leaves the cache
    as it is. *)
Lemma run_request_hit (fuel : nat) q o cache c :
  cacheable q o → cache !! o = Some c →
  run_request fuel q cache =
    (index_slice o c
       (boundary_arg (q_fromDate q) (kw_begin (q_kwds q)))
       (boundary_arg (q_toDate q) (kw_end (q_kwds q)))
       (periods_arg (q_periods q) (kw_nPeriods (q_kwds q))), cache).
Proof.
  intros Hq Hc. rewrite (run_request_cacheable _ _ _ _ Hq).
  by rewrite (cached_canonical_hit _ _ _ _ Hc).
Qed.

Lemma run_request_Ok_inv (fuel : nat) q o cache r cache1 :
  cacheable q o → run_request fuel q cache = (Ok r, cache1) →
  ∃ c, cache1 !! o = Some c ∧
       index_slice o c
         (boundary_arg (q_fromDate q) (kw_begin (q_kwds q)))
         (boundary_arg (q_toDate q) (kw_end (q_kwds q)))
         (periods_arg (q_periods q) (kw_nPeriods (q_kwds q))) = Ok r.
Proof.
  intros Hq. rewrite (run_request_cacheable _ _ _ _ Hq).
  destruct (cached_canonical fuel o cache) as [[c|e|] cache'] eqn:Hcanon;
    [|done..].
  intros [= Hr <-]. exists c. split; [|done]. by eapply cached_canonical_Ok.
Qed.

(** C8. Across any sequence of requests an entry of the cache is never
    changed or removed. A cacheable request whose offset has an entry runs
    no generator and leaves the cache as it is; one whose offset has none
    builds the canonical sequence and stores it (or fails and stores
    nothing): a canonical sequence is built by the first request for its
    offset only. Two cacheable requests with the same offset and the same
    boundaries, whatever was requested in between, return the same range. *)
Theorem canonical_built_once :
  (∀ (fuel : nat) qs cache o c,
     cache !! o = Some c → run_requests fuel qs cache !! o = Some c) ∧
  (∀ (fuel : nat) q cache o c,
     cacheable q o → cache !! o = Some c →
     run_request fuel q cache = run_request 0 q cache ∧
     snd (run_request fuel q cache) = cache) ∧
  (∀ (fuel : nat) q cache o,
     cacheable q o → cache !! o = None →
     match build_canonical fuel o with
     | Ok c => snd (run_request fuel q cache) = <[o := c]> cache
     | _ => snd (run_request fuel q cache) = cache ∧
            ¬ is_Ok (fst (run_request fuel q cache))
     end) ∧
  (∀ (fuel fuel' : nat) q q' qs cache r cache1 o,
     cacheable q o → cacheable q' o → same_boundaries q q' →
     run_request fuel q cache = (Ok r, cache1) →
     run_request fuel' q' (run_requests fuel' qs cache1)
     = (Ok r, run_requests fuel' qs cache1)).
Proof.
  split; [|split; [|split]].
  - intros. by apply run_requests_preserves.
  - intros fuel q cache o c Hq Hc.
    rewrite !(run_request_hit _ _ _ _ _ Hq Hc). done.
  - intros fuel q cache o Hq Hc.
    rewrite (run_request_cacheable _ _ _ _ Hq).
    rewrite (cached_canonical_miss _ _ _ Hc).
    destruct (build_canonical fuel o); cbn; [done | | ]; split; done || tauto.
  - intros fuel fuel' q q' qs cache r cache1 o Hq Hq' [Hf Ht] Hrun.
    destruct (run_request_Ok_inv _ _ _ _ _ _ Hq Hrun) as (c & Hc & Hr).
    pose proof (run_requests_preserves fuel' qs _ _ _ Hc) as Hc'.
    rewrite (run_request_hit _ _ _ _ _ Hq' Hc'). f_equal.
    rewrite <- Hr, <- Hf, <- Ht.
    destruct Hq as (_ & Hpath & _).
    apply cache_path_boundaries in Hpath as (f & t & -> & -> & _).
    apply index_slice_both.
Qed.

End Built_once.

(** ** Calendar days: the cache on an input *)

Section Calendar_days.
Import Datetools.

(** The canonical sequence of the calendar day has the 29221 days from
    1950-01-01 to 2030-01-01; 2021-01-02 is at position 25934. *)
Lemma calendar_canonical :
  match cached_canonical (Z.to_nat 30000) (DateOffset 1) ∅ with
  | (Ok canon, _) =>
      len canon = 29221 ∧
      spec_slice_locs (DateOffset 1) (r_values canon) None
        (Some (mkdate 2021 1 2)) (Some 3) = Some (25932, 25935) ∧
      slice_of (r_values canon) 25932 25935
      = [mkdate 2020 12 31; mkdate 2021 1 1; mkdate 2021 1 2]
  | _ => False
  end.
Proof. vm_compute. repeat split; reflexivity. Qed.

(** C2, on an input: the three calendar days that end on 2021-01-02. *)
Lemma getCachedRange_slice_witness :
  ∃ r cache',
    getCachedRange (Z.to_nat 30000) None (Some (mkdate 2021 1 2)) (Some 3)
      (Some (DateOffset 1)) None ∅ = (Ok r, cache') ∧
    r_values r = [mkdate 2020 12 31; mkdate 2021 1 1; mkdate 2021 1 2] ∧
    r_parent r = cache' !! DateOffset 1.
Proof.
  pose proof calendar_canonical as Hcal.
  destruct (cached_canonical (Z.to_nat 30000) (DateOffset 1) ∅)
    as [[canon| |] cache'] eqn:Hcanon; [|exact (False_rect _ Hcal)..].
  destruct Hcal as (Hlen & Hlocs & Hslice).
  destruct (getCachedRange_slice (Z.to_nat 30000) None
              (Some (mkdate 2021 1 2)) (Some 3) (Some (DateOffset 1)) None
              (DateOffset 1) ∅ cache' canon eq_refl Hcanon) as [Hc Hm].
  rewrite Hlocs in Hm. destruct Hm as (r & Hr & Hp & _ & _ & Hin).
  exists r, cache'. split; [exact Hr|]. split.
  - rewrite Hin; [exact Hslice | lia | lia].
  - rewrite Hc. exact Hp.
Defined.

(** A cacheable request for the calendar days from 2021-01-02 to
    2021-01-05. *)
Lemma calendar_request :
  match run_request (Z.to_nat 30000)
          (mkRequest (Some (mkdate 2021 1 2)) (Some (mkdate 2021 1 5)) None
             (DateOffset 1) None no_kwds) ∅ with
  | (Ok r, _) =>
      r_values r
      = [mkdate 2021 1 2; mkdate 2021 1 3; mkdate 2021 1 4; mkdate 2021 1 5]
  | _ => False
  end.
Proof. vm_compute. reflexivity. Qed.

(** The request is cacheable, whatever its period count. *)
Lemma cacheable_calendar (p : option Z) :
  cacheable (mkRequest (Some (mkdate 2021 1 2)) (Some (mkdate 2021 1 5)) p
               (DateOffset 1) None no_kwds) (DateOffset 1).
Proof. split; [reflexivity|]. split; [vm_compute; reflexivity | reflexivity]. Qed.

(** C8, on an input: the request above, then one for five business days,
    then the first again with a period count: the same range is returned,
    and no fuel is needed. *)
Lemma canonical_built_once_witness :
  ∃ r cache1,
    run_request (Z.to_nat 30000)
      (mkRequest (Some (mkdate 2021 1 2)) (Some (mkdate 2021 1 5)) None
         (DateOffset 1) None no_kwds) ∅ = (Ok r, cache1) ∧
    r_values r
    = [mkdate 2021 1 2; mkdate 2021 1 3; mkdate 2021 1 4; mkdate 2021 1 5] ∧
    run_request 0
      (mkRequest (Some (mkdate 2021 1 2)) (Some (mkdate 2021 1 5)) (Some 7)
         (DateOffset 1) None no_kwds)
      (run_requests 0
        [mkRequest (Some (mkdate 2021 1 1)) None (Some 5) (BDay 1) None
           no_kwds] cache1)
    = (Ok r,
       run_requests 0
        [mkRequest (Some (mkdate 2021 1 1)) None (Some 5) (BDay 1) None
           no_kwds] cache1).
Proof.
  pose proof calendar_request as Hreq.
  destruct (run_request (Z.to_nat 30000)
    (mkRequest (Some (mkdate 2021 1 2)) (Some (mkdate 2021 1 5)) None
       (DateOffset 1) None no_kwds) ∅) as [[r| |] cache1] eqn:Hrun;
    [|exact (False_rect _ Hreq)..].
  exists r, cache1. split; [reflexivity|]. split; [exact Hreq|].
  destruct (@canonical_built_once offset _ _ _) as (_ & _ & _ & Hsame).
  apply (Hsame (Z.to_nat 30000) 0%nat _ _ _ ∅ r cache1 (DateOffset 1)
           (cacheable_calendar None) (cacheable_calendar (Some 7))).
  - split; reflexivity.
  - exact Hrun.
Defined.

End Calendar_days.

(** ** The choice between the cache and the generator *)

Section Dispatch.
Context {O : Type} `{Offset O}.

(** What the test of lines 139-145 tests. *)
Lemma cache_path_iff (fromDate toDate : option datetime) (o : O) :
  cache_path fromDate toDate o = true ↔
  ∃ f t, fromDate = Some f ∧ toDate = Some t ∧
         CACHE_START < f ∧ t < CACHE_END ∧
         isAnchored o = true ∧ isTick o = false.
Proof.
  split; [apply cache_path_boundaries|].
  intros (f & t & -> & -> & Hf & Ht & Ha & Hk).
  unfold cache_path, useCache. rewrite Ha, Hk.
  destruct (Z.ltb_spec CACHE_START f), (Z.ltb_spec t CACHE_END); done || lia.
Qed.

(** Without a pre-built index, the construction is a cache lookup when
    the test holds and the materialized generator otherwise. *)
Lemma DateRange_new_dispatch (fuel : nat) (fromDate toDate : option datetime)
    (periods : option Z) (offset : O) (tr : option string) (kw : kwds O) :
  kw_index kw = None →
  DateRange_new fuel fromDate toDate periods offset tr kw =
    if cache_path (boundary_arg fromDate (kw_begin kw))
         (boundary_arg toDate (kw_end kw)) offset
    then getCachedRange fuel (boundary_arg fromDate (kw_begin kw))
           (boundary_arg toDate (kw_end kw))
           (periods_arg periods (kw_nPeriods kw)) (Some offset) tr
    else lift (materialize fuel (boundary_arg fromDate (kw_begin kw))
                 (boundary_arg toDate (kw_end kw))
                 (periods_arg periods (kw_nPeriods kw)) offset tr).
Proof. intros Hidx. unfold DateRange_new. by rewrite Hidx. Qed.

End Dispatch.

Section Outside_window.
Import Datetools.

(** The generator of the canonical sequence of the business day: from
    Monday 1950-01-02 to Tuesday 2030-01-01. *)
Lemma bday_canonical_init :
  XDateRange_init (Some CACHE_START) (Some CACHE_END) None (BDay 1) None
  = Ok (mkXDateRange (BDay 1) (Some "WEEKDAY"%string) (mkdate 1950 1 2)
          CACHE_END None).
Proof. vm_compute. reflexivity. Qed.

(** No date of the canonical sequence is after the end of the window. *)
Lemma bday_canonical_bounded (fuel : nat) (c : DateRange offset) d :
  build_canonical fuel (BDay 1) = Ok c → d ∈ r_values c → d ≤ CACHE_END.
Proof.
  unfold build_canonical. rewrite bday_canonical_init.
  cbn [mbind result_bind]. intros Hc Hd.
  apply bind_Ok in Hc as (l & Hl & [= <-]).
  cbn [r_values set_offset fromIndex DateRange_view ndarray] in Hd.
  apply list_elem_of_lookup_1 in Hd as [i Hi].
  by destruct (list_from_lookup _ _ _ _ Hl i d Hi) as [_ Hle].
Qed.

(** With enough fuel the canonical sequence is built. *)
Lemma bday_canonical_terminates :
  ∃ (fuel : nat) c, build_canonical fuel (BDay 1) = Ok c.
Proof. apply build_canonical_terminates. intros d. apply BDay_apply_1_lt. Qed.

(** C3, on the input [fromDate = 2031-01-01], [toDate = 2020-01-01] with the
    business day. [fromDate] is not inside the window, and yet the test of
    lines 139-145 holds (it compares [fromDate] with the start of the window
    and [toDate] with its end only): the construction is the cache lookup,
    which never returns a range and, once the canonical sequence is built,
    raises [KeyError], the rounded [fromDate] not being in the sequence. The
    generator gives the empty range on this input. *)
Theorem cache_path_outside_window :
  cache_path (Some (mkdate 2031 1 1)) (Some (mkdate 2020 1 1)) (BDay 1) = true ∧
  CACHE_END < mkdate 2031 1 1 ∧
  (∀ (fuel : nat) cache,
     DateRange_new fuel (Some (mkdate 2031 1 1)) (Some (mkdate 2020 1 1)) None
       (BDay 1) None no_kwds cache
     = getCachedRange fuel (Some (mkdate 2031 1 1)) (Some (mkdate 2020 1 1))
         None (Some (BDay 1)) None cache) ∧
  (∀ fuel : nat,
     ¬ is_Ok (fst (DateRange_new fuel (Some (mkdate 2031 1 1))
                     (Some (mkdate 2020 1 1)) None (BDay 1) None no_kwds ∅))) ∧
  (∃ fuel : nat,
     fst (DateRange_new fuel (Some (mkdate 2031 1 1))
            (Some (mkdate 2020 1 1)) None (BDay 1) None no_kwds ∅)
     = Raise KeyError) ∧
  materialize 1 (Some (mkdate 2031 1 1)) (Some (mkdate 2020 1 1)) None
    (BDay 1) None
  = Ok (mkDateRange [] (Some (BDay 1)) None).
Proof.
  assert (cache_path (Some (mkdate 2031 1 1)) (Some (mkdate 2020 1 1))
            (BDay 1) = true) as Hpath by (vm_compute; reflexivity).
  assert (CACHE_END < mkdate 2031 1 1) as Hout by (vm_compute; reflexivity).
  assert (rollforward (BDay 1) (mkdate 2031 1 1) = mkdate 2031 1 1) as Hroll
    by (vm_compute; reflexivity).
  assert (∀ (fuel : nat) cache,
     DateRange_new fuel (Some (mkdate 2031 1 1)) (Some (mkdate 2020 1 1)) None
       (BDay 1) None no_kwds cache
     = getCachedRange fuel (Some (mkdate 2031 1 1)) (Some (mkdate 2020 1 1))
         None (Some (BDay 1)) None cache) as Hnew.
  { intros fuel cache.
    rewrite DateRange_new_dispatch by reflexivity.
    cbn [boundary_arg periods_arg no_kwds kw_begin kw_end kw_nPeriods].
    rewrite Hpath. reflexivity. }
  assert (∀ (fuel : nat) c, build_canonical fuel (BDay 1) = Ok c →
            index_slice (BDay 1) c (Some (mkdate 2031 1 1))
              (Some (mkdate 2020 1 1)) None = Raise KeyError) as Hkey.
  { intros fuel c Hc. unfold index_slice, slice_locs, indexMap_get.
    rewrite Hroll.
    rewrite (indexMap_None (r_values c) (mkdate 2031 1 1)); [reflexivity|].
    intros Hin. pose proof (bday_canonical_bounded _ _ _ Hc Hin). lia. }
  assert (∀ fuel : nat,
     fst (getCachedRange fuel (Some (mkdate 2031 1 1))
            (Some (mkdate 2020 1 1)) None (Some (BDay 1)) None ∅) =
     match build_canonical fuel (BDay 1) with
     | Ok _ => Raise KeyError
     | Raise e => Raise e
     | Diverge => Diverge
     end) as Hget.
  { intros fuel.
    rewrite (getCachedRange_unfold _ _ _ _ _ _ (BDay 1)) by reflexivity.
    rewrite cached_canonical_miss by apply lookup_empty.
    destruct (build_canonical fuel (BDay 1)) as [c|e|] eqn:Hc;
      [|reflexivity..].
    cbn [fst]. by apply (Hkey fuel). }
  split; [exact Hpath|]. split; [exact Hout|]. split; [exact Hnew|].
  split; [|split].
  - intros fuel. rewrite Hnew, Hget.
    destruct (build_canonical fuel (BDay 1)); intros [].
  - destruct bday_canonical_terminates as (fuel & c & Hc).
    exists fuel. rewrite Hnew, Hget, Hc. reflexivity.
  - vm_compute. reflexivity.
Qed.

End Outside_window.

(** ** Shift *)

Section Shift.
Context {O : Type} `{Offset O}.
Implicit Types (self r : DateRange O) (cache : gmap O (DateRange O)).

Lemma shift_zero (fuel : nat) self cache :
  shift fuel self 0 cache = (Ok self, cache).
Proof. done. Qed.

Lemma slice_expr_from self (n : Z) :
  0 ≤ n →
  r_values (slice_expr self (Some n) None) = drop (Z.to_nat n) (r_values self).
Proof.
  intros Hn. unfold slice_expr, DateRange_getslice. cbn.
  destruct (Z.ltb_spec n 0); [lia|].
  unfold ndarray_slice, slice_bound, len.
  destruct (Z.ltb_spec n 0); [lia|].
  destruct (Z.ltb_spec (Z.of_nat (length (r_values self))) 0); [lia|].
  rewrite Z.min_id.
  destruct (Z.le_gt_cases n (Z.of_nat (length (r_values self)))).
  - rewrite Z.min_l by lia. apply take_ge. rewrite length_drop. lia.
  - rewrite Z.min_r by lia. rewrite !drop_ge by lia. by rewrite take_nil.
Qed.

(** A construction from one boundary and a positive period count never
    reads the cache: it materializes the generator. *)
Lemma DateRange_new_one_boundary (fuel : nat)
    (fromDate toDate : option datetime) (n : Z) (offset : O) cache :
  fromDate = None ∨ toDate = None → 0 < n →
  DateRange_new fuel fromDate toDate (Some n) offset None no_kwds cache
  = (materialize fuel fromDate toDate (Some n) offset None, cache).
Proof.
  intros Hone Hn. rewrite DateRange_new_dispatch by done.
  assert (periods_arg (Some n) (kw_nPeriods (@no_kwds O)) = Some n) as ->
    by (destruct n; done || lia).
  assert (cache_path (boundary_arg fromDate (kw_begin (@no_kwds O)))
            (boundary_arg toDate (kw_end (@no_kwds O))) offset = false) as ->.
  { unfold cache_path, useCache.
    destruct Hone as [-> | ->]; cbn; [done|].
    by rewrite andb_false_r. }
  by destruct fromDate, toDate.
Qed.

(** What a forward shift computes: the elements of [self] from position
    [n] on, followed by a range that is generated from the date after the
    last one with the period count [n] and the offset [bday], whatever the
    offset of [self]; the result has the offset of [self] and the cache is
    not touched. *)
Lemma shift_forward (fuel : nat) self (n : Z) cache r cache' :
  0 < n → shift fuel self n cache = (Ok r, cache') →
  cache' = cache ∧ r_offset r = r_offset self ∧
  ∃ o last tail,
    r_offset self = Some o ∧
    DateRange_getitem self (-1) = Ok last ∧
    materialize fuel (Some (date_add last o)) None (Some n) bday None
    = Ok tail ∧
    r_values r = drop (Z.to_nat n) (r_values self) ++ r_values tail.
Proof.
  intros Hn. unfold shift.
  destruct (Z.ltb_spec 0 n) as [_|]; [|lia].
  unfold mbind, M_bind, lift, mret, M_ret.
  destruct (DateRange_getitem self (-1)) as [last| |]; [|done..].
  destruct (r_offset self) as [o|] eqn:Ho; [|done]. cbn [add_offset].
  rewrite DateRange_new_one_boundary by (auto || lia).
  destruct (materialize fuel (Some (date_add last o)) None (Some n) bday None)
    as [tail| |] eqn:Htail; [|done..].
  intros [= <- <-]. split; [done|]. split; [done|].
  exists o, last, tail. repeat split; try done.
  cbn. by rewrite <- slice_expr_from by lia.
Qed.

End Shift.

Section Shift_calendar_days.
Import Datetools.

(** C1, on the range of Thursday 2021-01-07 and Friday 2021-01-08 with the
    calendar-day offset, shifted by 1. The first element is dropped and the
    offset is kept, but the appended element is Monday 2021-01-11, the next
    business day, and not the date one calendar day after the last element,
    Saturday 2021-01-09. *)
Theorem shift_tail_uses_bday :
  fst (shift 10
         (mkDateRange [mkdate 2021 1 7; mkdate 2021 1 8]
            (Some (DateOffset 1)) None) 1 ∅)
  = Ok (mkDateRange [mkdate 2021 1 8; mkdate 2021 1 11]
          (Some (DateOffset 1)) None) ∧
  date_add (mkdate 2021 1 8) (DateOffset 1) = mkdate 2021 1 9 ∧
  mkdate 2021 1 9 ≠ mkdate 2021 1 11.
Proof.
  split; [vm_compute; reflexivity|]. split; [vm_compute; reflexivity|].
  vm_compute. discriminate.
Qed.

(** With the business-day offset the same shift continues the range. *)
Example shift_business_days :
  fst (shift 10
         (mkDateRange [mkdate 2021 1 7; mkdate 2021 1 8] (Some (BDay 1)) None)
         1 ∅)
  = Ok (mkDateRange [mkdate 2021 1 8; mkdate 2021 1 11] (Some (BDay 1)) None).
Proof. vm_compute. reflexivity. Qed.

End Shift_calendar_days.

(** * Further properties *)

(** ** Indexing *)

Section Indexing.
Context {O : Type} `{Offset O}.
Implicit Types (self r : DateRange O) (a : list datetime).

Lemma ndarray_item_nat a (n : nat) :
  ndarray_item a (Z.of_nat n) =
    match a !! n with Some d => Ok d | None => Raise IndexError end.
Proof.
  unfold ndarray_item.
  destruct (Z.ltb_spec (Z.of_nat n) 0); [lia|].
  rewrite Nat2Z.id.
  destruct (Z.leb_spec 0 (Z.of_nat n)); [|lia].
  destruct (Z.ltb_spec (Z.of_nat n) (Z.of_nat (length a))); cbn; [done|].
  by rewrite lookup_ge_None_2 by lia.
Qed.

Lemma DateRange_getitem_in_range self (k : Z) :
  is_Ok (DateRange_getitem self k) ↔ - len self ≤ k < len self.
Proof.
  unfold DateRange_getitem, len. set (a := r_values self).
  unfold ndarray_item.
  destruct (Z.ltb_spec k 0), (Z.leb_spec 0 (k + Z.of_nat (length a))),
    (Z.leb_spec 0 k), (Z.ltb_spec k (Z.of_nat (length a))),
    (Z.ltb_spec (k + Z.of_nat (length a)) (Z.of_nat (length a)));
    cbn; try lia; try (split; [intros [] | lia]).
  - destruct (lookup_lt_is_Some_2 a (Z.to_nat (k + Z.of_nat (length a))))
      as [d ->]; [lia|]. cbn. split; [lia|done].
  - destruct (lookup_lt_is_Some_2 a (Z.to_nat k)) as [d ->]; [lia|].
    cbn. split; [lia|done].
Qed.

(** X1. Integer indexing returns an element exactly for the indices from
    [-len] to [len - 1], a negative index counting from the end; any other
    index raises [IndexError]. *)
Theorem DateRange_getitem_bounds self (k : Z) :
  (is_Ok (DateRange_getitem self k) ↔ - len self ≤ k < len self) ∧
  (is_Ok (DateRange_getitem self k) ∨
   DateRange_getitem self k = Raise IndexError) ∧
  (∀ (n : nat) d, r_values self !! n = Some d →
     DateRange_getitem self (Z.of_nat n) = Ok d ∧
     DateRange_getitem self (Z.of_nat n - len self) = Ok d).
Proof.
  split; [apply DateRange_getitem_in_range|].
  unfold DateRange_getitem, len. set (a := r_values self). split.
  - unfold ndarray_item.
    destruct (_ && _); [|by right].
    destruct (a !! _); [by left | by right].
  - intros n d Hd. pose proof (lookup_lt_Some _ _ _ Hd) as Hn.
    split; [by rewrite ndarray_item_nat, Hd|].
    unfold ndarray_item.
    destruct (Z.ltb_spec (Z.of_nat n - Z.of_nat (length a)) 0); [|lia].
    replace (Z.of_nat n - Z.of_nat (length a) + Z.of_nat (length a))
      with (Z.of_nat n) by lia.
    destruct (Z.leb_spec 0 (Z.of_nat n)); [|lia].
    destruct (Z.ltb_spec (Z.of_nat n) (Z.of_nat (length a))); [|lia].
    cbn. by rewrite Nat2Z.id, Hd.
Qed.

(** X2. A slice with bounds in order and within the range: its elements are
    those of the range at the same positions counted from the first bound;
    it keeps the offset and has no parent. *)
Theorem slice_expr_getitem self (i j k : Z) :
  0 ≤ i → i ≤ j → j ≤ len self → 0 ≤ k < j - i →
  DateRange_getitem (slice_expr self (Some i) (Some j)) k
  = DateRange_getitem self (i + k) ∧
  r_offset (slice_expr self (Some i) (Some j)) = r_offset self ∧
  r_parent (slice_expr self (Some i) (Some j)) = None.
Proof.
  intros Hi Hij Hj Hk. split; [|done].
  unfold DateRange_getitem.
  rewrite slice_expr_values_in_range by lia.
  replace k with (Z.of_nat (Z.to_nat k)) by lia.
  replace (i + Z.of_nat (Z.to_nat k)) with (Z.of_nat (Z.to_nat i + Z.to_nat k))
    by lia.
  rewrite !ndarray_item_nat. by rewrite slice_of_lookup by lia.
Qed.

Lemma ndarray_slice_length a (i j : Z) :
  0 ≤ i → 0 ≤ j →
  Z.of_nat (length (ndarray_slice a i j))
  = Z.max 0 (Z.min j (Z.of_nat (length a)) - Z.min i (Z.of_nat (length a))).
Proof.
  intros Hi Hj. unfold ndarray_slice, slice_bound.
  destruct (Z.ltb_spec i 0), (Z.ltb_spec j 0); try lia.
  rewrite length_take, length_drop. lia.
Qed.

Lemma slice_expr_len_nonneg self (i j : Z) :
  0 ≤ i → 0 ≤ j →
  len (slice_expr self (Some i) (Some j))
  = Z.max 0 (Z.min j (len self) - Z.min i (len self)).
Proof.
  intros Hi Hj. unfold slice_expr, DateRange_getslice, len at 1. cbn.
  destruct (Z.ltb_spec i 0), (Z.ltb_spec j 0); try lia.
  by apply ndarray_slice_length.
Qed.

(** X3. A slice never fails: bounds beyond the end are clamped and bounds out
    of order give the empty range; a negative bound not below [-len] counts
    from the end. *)
Theorem slice_expr_len self (i j : Z) :
  (0 ≤ i → 0 ≤ j →
   len (slice_expr self (Some i) (Some j))
   = Z.max 0 (Z.min j (len self) - Z.min i (len self))) ∧
  (- len self ≤ i < 0 →
   slice_expr self (Some i) (Some j)
   = slice_expr self (Some (i + len self)) (Some j)) ∧
  (- len self ≤ j < 0 →
   slice_expr self (Some i) (Some j)
   = slice_expr self (Some i) (Some (j + len self))).
Proof.
  split; [|split].
  - apply slice_expr_len_nonneg.
  - intros Hi. unfold slice_expr.
    destruct (Z.ltb_spec i 0); [|lia].
    destruct (Z.ltb_spec (i + len self) 0); [lia|]. done.
  - intros Hj. unfold slice_expr.
    destruct (Z.ltb_spec j 0); [|lia].
    destruct (Z.ltb_spec (j + len self) 0); [lia|]. done.
Qed.

Lemma slice_of_slice_of a (i j k l : Z) :
  0 ≤ i → i ≤ j → j ≤ Z.of_nat (length a) → 0 ≤ k → k ≤ l → l ≤ j - i →
  slice_of (slice_of a i j) k l = slice_of a (i + k) (i + l).
Proof.
  intros Hi Hij Hj Hk Hkl Hl. unfold slice_of. apply list_eq. intros n.
  replace (Z.to_nat (i + l - (i + k))) with (Z.to_nat (l - k)) by lia.
  destruct (decide (n < Z.to_nat (l - k))%nat) as [Hn|Hn].
  - rewrite !lookup_take_lt by done. rewrite !lookup_drop.
    rewrite lookup_take_lt by lia. rewrite lookup_drop. f_equal. lia.
  - by rewrite !lookup_take_ge by lia.
Qed.

(** X4. A slice of a slice is a slice of the range. *)
Theorem slice_expr_compose self (i j k l : Z) :
  0 ≤ i → i ≤ j → j ≤ len self → 0 ≤ k → k ≤ l → l ≤ j - i →
  slice_expr (slice_expr self (Some i) (Some j)) (Some k) (Some l)
  = slice_expr self (Some (i + k)) (Some (i + l)).
Proof.
  intros Hi Hij Hj Hk Hkl Hl.
  assert (len (slice_expr self (Some i) (Some j)) = j - i) as Hlen.
  { rewrite slice_expr_len_nonneg by lia. lia. }
  assert (∀ r r' : DateRange O,
            r_values r = r_values r' → r_offset r = r_offset r' →
            r_parent r = r_parent r' → r = r') as Hext.
  { intros [] []. cbn. by intros -> -> ->. }
  apply Hext; [|done..].
  rewrite !slice_expr_values_in_range by lia.
  apply slice_of_slice_of; unfold len in *; lia.
Qed.

End Indexing.

(** ** Slices with a step *)

Section Step.
Context {O : Type} `{Offset O}.
Implicit Types (self r : DateRange O) (a : list datetime).

Lemma strided_from_lookup (skip k : nat) a (m : nat) :
  (1 ≤ k)%nat → strided_from skip k a !! m = a !! (skip + m * k)%nat.
Proof.
  intros Hk. revert skip m. induction a as [|x a IH]; intros skip m; [done|].
  destruct skip as [|skip]; cbn [strided_from].
  - destruct m as [|m]; [done|]. cbn [lookup list_lookup]. rewrite IH.
    replace (0 + S m * k)%nat with (S (k - 1 + m * k)) by lia. done.
  - rewrite IH. done.
Qed.

(** In a sequence whose neighbours are one step apart, two elements [k]
    positions apart are [k] steps apart. *)
Lemma adjacent_iter (f : datetime → datetime) a (n k : nat) x y :
  (∀ (i : nat) u v, a !! i = Some u → a !! S i = Some v → v = f u) →
  a !! n = Some x → a !! (n + k)%nat = Some y → y = Nat.iter k f x.
Proof.
  intros Hadj Hx. revert y. induction k as [|k IH]; intros y Hy.
  - rewrite Nat.add_0_r in Hy. cbn. congruence.
  - replace (n + S k)%nat with (S (n + k)) in Hy by lia.
    destruct (lookup_lt_is_Some_2 a (n + k)%nat) as [z Hz].
    { apply lookup_lt_Some in Hy. lia. }
    change (Nat.iter (S k) f x) with (f (Nat.iter k f x)).
    rewrite <- (IH z Hz). by eapply Hadj.
Qed.

Lemma adjacent_window (f : datetime → datetime) a (lo n : nat) :
  (∀ (i : nat) u v, a !! i = Some u → a !! S i = Some v → v = f u) →
  ∀ (i : nat) u v, take n (drop lo a) !! i = Some u →
                   take n (drop lo a) !! S i = Some v → v = f u.
Proof.
  intros Hadj i u v Hu Hv.
  apply lookup_take_Some in Hu as [Hu _], Hv as [Hv _].
  rewrite lookup_drop in Hu, Hv.
  replace (lo + S i)%nat with (S (lo + i)) in Hv by lia. by eapply Hadj.
Qed.

(** X5. A slice with a positive step. Without an offset on the range it raises
    [TypeError]. Otherwise it returns a range without parent whose offset
    is the step times the offset of the range; [self[::step]] has the
    elements of the range at the multiples of the step; and when the
    neighbours of the range are one offset step apart, the neighbours of
    any slice with step are [step] offset steps apart. *)
Theorem DateRange_getitem_step_spec self (i j : option Z) (step : positive) :
  (r_offset self = None →
   DateRange_getitem_step self i j step = Raise TypeError) ∧
  (∀ o, r_offset self = Some o →
     ∃ r, DateRange_getitem_step self i j step = Ok r ∧
       r_offset r = Some (offset_mul (Z.pos step) o) ∧
       r_parent r = None ∧
       (i = None → j = None →
        ∀ m : nat, r_values r !! m
                   = r_values self !! (m * Pos.to_nat step)%nat) ∧
       ((∀ (n : nat) u v, r_values self !! n = Some u →
           r_values self !! S n = Some v → v = date_add u o) →
        ∀ (m : nat) u v, r_values r !! m = Some u → r_values r !! S m = Some v →
          v = Nat.iter (Pos.to_nat step) (λ c, date_add c o) u)).
Proof.
  unfold DateRange_getitem_step. split; [by intros ->|].
  intros o ->. eexists. split; [done|]. cbn. split; [done|]. split; [done|].
  unfold ndarray_slice_step. split.
  - intros -> -> m. rewrite strided_from_lookup by lia.
    rewrite Z.sub_0_r, Nat2Z.id. cbn [drop Z.to_nat].
    by rewrite firstn_all.
  - intros Hadj m u v. rewrite !strided_from_lookup by lia.
    intros Hu Hv.
    replace (0 + S m * Pos.to_nat step)%nat
      with (0 + m * Pos.to_nat step + Pos.to_nat step)%nat in Hv by lia.
    eapply adjacent_iter; [|exact Hu|exact Hv].
    by apply adjacent_window.
Qed.

End Step.

(** ** Comparisons *)

Section Comparisons.
Context {O : Type} `{Offset O}.
Implicit Types (self : DateRange O) (a : list datetime).

Lemma le_mask_above a (d : datetime) :
  Forall (λ e, d < e) a →
  map (λ e, e <=? d) a = replicate (length a) false ∧
  filter (λ e, e ≤ d) a = [].
Proof.
  induction 1 as [|x a Hx _ [IHm IHf]]; [done|].
  rewrite filter_cons_False by lia. cbn [map length replicate].
  destruct (Z.leb_spec x d); [lia|]. by rewrite IHm.
Qed.

Lemma le_mask_sorted a (d : datetime) :
  (∀ (i j : nat) x y, (i < j)%nat → a !! i = Some x → a !! j = Some y → x < y) →
  map (λ e, e <=? d) a
  = replicate (length (filter (λ e, e ≤ d) a)) true
    ++ replicate (length a - length (filter (λ e, e ≤ d) a)) false ∧
  take (length (filter (λ e, e ≤ d) a)) a = filter (λ e, e ≤ d) a.
Proof.
  induction a as [|x a IH]; intros Hinc; [done|].
  assert (∀ (i j : nat) u v, (i < j)%nat → a !! i = Some u → a !! j = Some v → u < v)
    as Hinc'.
  { intros i j u v Hij Hu Hv. by apply (Hinc (S i) (S j) u v); [lia|..]. }
  assert (Forall (λ e, x < e) a) as Hx.
  { apply Forall_lookup. intros i e He. by apply (Hinc 0%nat (S i) x e); [lia|..]. }
  cbn [map]. destruct (Z.leb_spec x d) as [Hle|Hgt].
  - rewrite filter_cons_True by done. destruct (IH Hinc') as [IHm IHt].
    cbn [length replicate app take]. rewrite IHt. split; [|done].
    cbn. f_equal. exact IHm.
  - rewrite filter_cons_False by lia.
    assert (Forall (λ e, d < e) a) as Hd.
    { eapply Forall_impl; [exact Hx|]. intros e He. cbn in He. lia. }
    destruct (le_mask_above a d Hd) as [Hm Hf]. rewrite Hf, Hm. done.
Qed.

(** X6. On a strictly increasing range the mask of [self <= d] is true on the
    first [k] positions and false afterwards, [k] being the number of
    elements not after [d], and [self[:k]] is the range of those elements:
    the mask cuts the range in two. *)
Theorem DateRange_le_mask self (d : datetime) :
  (∀ (i j : nat) x y,
     (i < j)%nat → r_values self !! i = Some x → r_values self !! j = Some y →
     x < y) →
  DateRange_le self d
  = replicate (length (filter (λ e, e ≤ d) (r_values self))) true
    ++ replicate (length (r_values self)
                  - length (filter (λ e, e ≤ d) (r_values self))) false ∧
  r_values (slice_expr self None
              (Some (Z.of_nat (length (filter (λ e, e ≤ d) (r_values self))))))
  = filter (λ e, e ≤ d) (r_values self).
Proof.
  intros Hinc. destruct (le_mask_sorted _ d Hinc) as [Hm Ht].
  split; [exact Hm|].
  pose proof (length_filter (λ e, e ≤ d) (r_values self)) as Hlen.
  unfold slice_expr, DateRange_getslice. cbn.
  destruct (Z.ltb_spec (Z.of_nat (length (filter (λ e, e ≤ d) (r_values self)))) 0);
    [lia|].
  rewrite ndarray_slice_in_range by lia.
  unfold slice_of. rewrite Z.sub_0_r, Nat2Z.id. exact Ht.
Qed.

End Comparisons.

(** ** Printing *)

Section Printing.
Context {O : Type} `{Offset O}.

(** X8. [repr] of an empty range raises [IndexError] (it reads [self[0]]); on
    any other range it returns a text. *)
Theorem DateRange_repr_empty (str_offset : option O → string)
    (str_datetime : datetime → string) (self : DateRange O) :
  (DateRange_repr str_offset str_datetime self = Raise IndexError ↔
   r_values self = []) ∧
  (is_Ok (DateRange_repr str_offset str_datetime self) ↔ r_values self ≠ []).
Proof.
  unfold DateRange_repr.
  destruct (r_values self) as [|x a] eqn:Hv.
  - assert (DateRange_getitem self 0 = Raise IndexError) as ->
      by (unfold DateRange_getitem; by rewrite Hv).
    cbn. split; [done|]. split; [intros [] | done].
  - assert (DateRange_getitem self 0 = Ok x) as ->
      by (unfold DateRange_getitem; by rewrite Hv).
    pose proof (DateRange_getitem_in_range self (-1)) as Hok.
    destruct (DateRange_getitem self (-1)) as [y| |] eqn:Hlast.
    + cbn. split; [done|]. split; [done|]. intros _. exact I.
    + exfalso. destruct Hok as [_ Hok]. apply Hok.
      unfold len. rewrite Hv. cbn [length]. lia.
    + exfalso. destruct Hok as [_ Hok]. apply Hok.
      unfold len. rewrite Hv. cbn [length]. lia.
Qed.

End Printing.

(** ** The length of a generated range *)

Section Generated.
Context {O : Type} `{Offset O}.
Implicit Types (self x : XDateRange O) (o offset : O) (f t d : datetime).

Lemma iter_lt (g : datetime → datetime) (i j : nat) (c : datetime) :
  (∀ d, d < g d) → (i < j)%nat → Nat.iter i g c < Nat.iter j g c.
Proof.
  intros Hg Hij. induction j as [|j IH]; [lia|].
  change (Nat.iter (S j) g c) with (g (Nat.iter j g c)).
  pose proof (Hg (Nat.iter j g c)).
  destruct (decide (i = j)) as [->|Hne]; [done|].
  etrans; [apply IH; lia | done].
Qed.

Lemma iter_le_iff (g : datetime → datetime) (i j : nat) (c : datetime) :
  (∀ d, d < g d) → Nat.iter i g c ≤ Nat.iter j g c ↔ (i ≤ j)%nat.
Proof.
  intros Hg. split.
  - intros Hle. destruct (decide (i ≤ j)%nat); [done|].
    pose proof (iter_lt g j i c Hg ltac:(lia)). lia.
  - intros Hij. destruct (decide (i = j)) as [->|]; [done|].
    pose proof (iter_lt g i j c Hg ltac:(lia)). lia.
Qed.

(** The positions of a generated sequence are those whose iterate is not
    after [toDate]. *)
Lemma list_from_length_iff (fuel : nat) self cur (l : list datetime) (k : nat) :
  (∀ d, d < step self d) →
  list_from fuel self cur = Ok l →
  (k < length l)%nat ↔ Nat.iter k (step self) cur ≤ x_toDate self.
Proof.
  intros Hinc Hrun. split.
  - intros Hk. destruct (lookup_lt_is_Some_2 l k Hk) as [d Hd].
    by destruct (list_from_lookup _ _ _ _ Hrun _ _ Hd) as [<- ?].
  - intros Hle. destruct (decide (k < length l)%nat); [done|].
    pose proof (list_from_stop _ _ _ _ Hrun) as Hstop.
    pose proof (proj2 (iter_le_iff (step self) (length l) k cur Hinc)
                  ltac:(lia)). lia.
Qed.

Lemma list_from_lookup_iter (fuel : nat) self cur (l : list datetime) (k : nat) :
  list_from fuel self cur = Ok l → (k < length l)%nat →
  l !! k = Some (Nat.iter k (step self) cur).
Proof.
  intros Hrun Hk. destruct (lookup_lt_is_Some_2 l k Hk) as [d Hd].
  by destruct (list_from_lookup _ _ _ _ Hrun _ _ Hd) as [<- ?].
Qed.

(** X9. A construction from [fromDate] and a period count [n] of at least 1,
    for an offset whose step moves forward and whose [n - 1]-fold multiple
    is [n - 1] steps: the generated range has exactly [n] dates, from the
    snapped [fromDate] to the stored [toDate]. *)
Theorem XDateRange_periods_count f (n : Z) offset tr o tr' x (fuel : nat)
    (l : list datetime) :
  resolve_timeRule offset tr = Ok (o, tr') →
  1 ≤ n →
  (∀ d, d < date_add d o) →
  (normalizeFirst o = true →
   normalize_date (snapped_from o f) = snapped_from o f) →
  date_add (snapped_from o f) (offset_mul (n - 1) o)
  = Nat.iter (Z.to_nat (n - 1)) (λ c, date_add c o) (snapped_from o f) →
  XDateRange_init (Some f) None (Some n) offset tr = Ok x →
  list_XDateRange fuel x = Ok l →
  length l = Z.to_nat n ∧
  l !! 0%nat = Some (snapped_from o f) ∧
  last l = Some (x_toDate x).
Proof.
  intros Hres Hn Hinc Hnorm Hmul Hx Hrun.
  rewrite (XDateRange_init_from _ _ _ _ _ _ Hres) in Hx.
  injection Hx as <-. unfold list_XDateRange, XDateRange_iter in Hrun.
  cbn [x_offset x_fromDate x_toDate] in *.
  set (f' := snapped_from o f) in *.
  assert ((if normalizeFirst o then normalize_date f' else f') = f') as Hcur.
  { destruct (normalizeFirst o); [by apply Hnorm | done]. }
  rewrite Hcur in Hrun.
  set (x := mkXDateRange o tr' f' (date_add f' (offset_mul (n - 1) o)) (Some n))
    in *.
  assert (∀ d, d < step x d) as Hstep by (intros d; apply Hinc).
  assert (∀ k : nat, (k < length l)%nat ↔ (k ≤ Z.to_nat (n - 1))%nat) as Hlen.
  { intros k. rewrite (list_from_length_iff _ _ _ _ _ Hstep Hrun).
    cbn [x_toDate x]. rewrite Hmul.
    apply (iter_le_iff (step x) k (Z.to_nat (n - 1)) f' Hstep). }
  assert (length l = Z.to_nat n) as Hl.
  { pose proof (Hlen (length l)) as H1.
    pose proof (Hlen (Nat.pred (length l))) as H2.
    pose proof (Hlen (Z.to_nat (n - 1))) as H3. lia. }
  split; [done|]. split.
  - rewrite (list_from_lookup_iter _ _ _ _ 0%nat Hrun) by lia. done.
  - rewrite last_lookup.
    rewrite (list_from_lookup_iter _ _ _ _ _ Hrun) by lia.
    cbn [x_toDate x]. rewrite Hmul. do 2 f_equal. lia.
Qed.

(** X10. The note of the class: with both boundaries given, every generated date
    lies between them, for an offset whose step moves forward, whose
    snapping moves [fromDate] forward and [toDate] backward (a step back
    from the snapped [fromDate] ending before it), and whose normalization
    leaves the snapped [fromDate] as it is. *)
Theorem XDateRange_within_bounds f t (n : option Z) offset tr o tr' x
    (fuel : nat) (l : list datetime) :
  resolve_timeRule offset tr = Ok (o, tr') →
  (∀ d, d < date_add d o) →
  f ≤ snapped_from o f →
  snapped_to o t ≤ t →
  (normalizeFirst o = true →
   normalize_date (snapped_from o f) = snapped_from o f) →
  date_add (snapped_from o f) (offset_mul (0 - 1) o) < snapped_from o f →
  XDateRange_init (Some f) (Some t) n offset tr = Ok x →
  list_XDateRange fuel x = Ok l →
  Forall (λ d, f ≤ d ≤ t) l.
Proof.
  intros Hres Hinc Hf Ht Hnorm Hback Hx Hrun.
  pose proof (XDateRange_init_offset _ _ _ _ _ _ _ _ Hres Hx) as Ho.
  assert (x_fromDate x = snapped_from o f ∧
          (x_toDate x ≤ t ∨ x_toDate x < snapped_from o f)) as [Hfrom Hto].
  { rewrite (XDateRange_init_both _ _ _ _ _ _ _ Hres) in Hx.
    destruct (onOffset o t) eqn:Hon.
    - injection Hx as <-. cbn. split; [done|]. left.
      unfold snapped_to in Ht. by rewrite Hon in Ht.
    - destruct n as [n|].
      + injection Hx as <-. cbn. split; [done|]. by left.
      + destruct (Z.ltb_spec (snapped_to o t) (snapped_from o f)).
        * injection Hx as <-. cbn. split; [done|]. by right.
        * injection Hx as <-. cbn. split; [done|]. by left. }
  unfold list_XDateRange in Hrun.
  assert (XDateRange_iter x = snapped_from o f) as Hcur.
  { unfold XDateRange_iter. rewrite Ho, Hfrom.
    destruct (normalizeFirst o); [by apply Hnorm | done]. }
  rewrite Hcur in Hrun.
  assert (∀ d, d < step x d) as Hstep
    by (intros d; unfold step; rewrite Ho; apply Hinc).
  apply Forall_lookup. intros i d Hd.
  destruct (list_from_lookup _ _ _ _ Hrun _ _ Hd) as [-> Hle].
  assert (snapped_from o f ≤ Nat.iter i (step x) (snapped_from o f)) as Hge.
  { apply (iter_le_iff (step x) 0%nat i _ Hstep). lia. }
  lia.
Qed.

End Generated.

(** ** The cache and the generator agree *)

Section Agreement.
Context {O : Type} `{Offset O}.
Implicit Types (o : O) (cache : gmap O (DateRange O)) (c r : DateRange O)
  (f t : datetime).

(** In the sequence of the iterates of an increasing step from [c0], the
    part from the position of [s] to the position of [e] is the sequence of
    the iterates from [s] that are not after [e]. *)
Lemma iterates_window (g : datetime → datetime) (c0 s e : datetime)
    (L l : list datetime) (ps pe : nat) :
  (∀ d, d < g d) →
  (∀ (i : nat) d, L !! i = Some d → d = Nat.iter i g c0) →
  L !! ps = Some s → L !! pe = Some e →
  (∀ k : nat, (k < length l)%nat ↔ Nat.iter k g s ≤ e) →
  (∀ (k : nat) d, l !! k = Some d → d = Nat.iter k g s) →
  take (pe + 1 - ps) (drop ps L) = l.
Proof.
  intros Hg HL Hs He Hlen Hl.
  pose proof (HL _ _ Hs) as Hs'. pose proof (HL _ _ He) as He'.
  assert (∀ k : nat, Nat.iter k g s = Nat.iter (k + ps) g c0) as Hiter
    by (intros k; by rewrite Nat.iter_add, <- Hs').
  assert (∀ k : nat, (k < length l)%nat ↔ (k + ps ≤ pe)%nat) as Hlen'.
  { intros k. rewrite Hlen, Hiter, He'. by apply iter_le_iff. }
  apply list_eq. intros k.
  destruct (decide (k + ps ≤ pe)%nat) as [Hk|Hk].
  - rewrite lookup_take_lt by lia. rewrite lookup_drop.
    destruct (lookup_lt_is_Some_2 L (ps + k)) as [d Hd].
    { apply lookup_lt_Some in He. lia. }
    destruct (lookup_lt_is_Some_2 l k) as [d' Hd']; [by apply Hlen'|].
    rewrite Hd, Hd'. f_equal.
    rewrite (HL _ _ Hd), (Hl _ _ Hd'), Hiter. f_equal. lia.
  - rewrite lookup_take_ge by lia. symmetry. apply lookup_ge_None.
    pose proof (Hlen' k). lia.
Qed.

Lemma cached_canonical_built (fuel : nat) o cache cache' c :
  cache_built cache →
  cached_canonical fuel o cache = (Ok c, cache') →
  ∃ fuel0 : nat, build_canonical fuel0 o = Ok c.
Proof.
  intros Hwf. unfold cached_canonical.
  destruct (cache !! o) as [c0|] eqn:Hc.
  - intros [= <- <-]. by eapply Hwf.
  - destruct (build_canonical fuel o) as [c0| |] eqn:Hb; [|done..].
    intros [= <- <-]. eauto.
Qed.

(** X11. For an offset whose step moves forward and whose rounding is the
    snapping of the generator, and boundaries that are in order after
    snapping: the range that a cache lookup returns for the two boundaries
    has the same dates and the same offset as the range that the generator
    gives for them. *)
Theorem cached_range_is_generated_range (fuel fuel' : nat) o f t
    (p : option Z) cache r cache' (r' : DateRange O) :
  (∀ d, d < date_add d o) →
  rollforward o f
  = (if normalizeFirst o then normalize_date (snapped_from o f)
     else snapped_from o f) →
  rollback o t = snapped_to o t →
  snapped_from o f ≤ snapped_to o t →
  cache_built cache →
  getCachedRange fuel (Some f) (Some t) p (Some o) None cache = (Ok r, cache') →
  materialize fuel' (Some f) (Some t) p o None = Ok r' →
  r_values r = r_values r' ∧ r_offset r = r_offset r'.
Proof.
  intros Hinc Hfwd Hbwd Hord Hwf Hget Hmat.
  (* the canonical sequence *)
  rewrite (getCachedRange_unfold _ _ _ _ _ _ o) in Hget by done.
  destruct (cached_canonical fuel o cache) as [[c| |] cache1] eqn:Hcanon;
    [|done..].
  destruct (cached_canonical_built _ _ _ _ _ Hwf Hcanon) as [fuel0 Hbuild].
  injection Hget as Hslice _.
  unfold build_canonical in Hbuild.
  apply bind_Ok in Hbuild as (x0 & Hx0 & Hbuild).
  apply bind_Ok in Hbuild as (L & HL & [= <-]).
  pose proof (XDateRange_init_offset _ _ _ _ _ _ _ _
                (resolve_timeRule_None o) Hx0) as Ho0.
  unfold list_XDateRange in HL.
  (* the slice *)
  unfold index_slice, slice_locs, indexMap_get in Hslice.
  cbn [r_values set_offset fromIndex DateRange_view ndarray] in Hslice.
  destruct (indexMap L (rollforward o f)) as [ps|] eqn:Hps; [|done].
  destruct (indexMap L (rollback o t)) as [pe|] eqn:Hpe; [|done].
  cbn [mbind result_bind] in Hslice. injection Hslice as <-.
  destruct (indexMap_Some _ _ _ Hps) as [Hps0 Hs].
  destruct (indexMap_Some _ _ _ Hpe) as [Hpe0 He].
  pose proof (lookup_lt_Some _ _ _ Hs) as Hps1.
  pose proof (lookup_lt_Some _ _ _ He) as Hpe1.
  (* the generator *)
  unfold materialize in Hmat.
  apply bind_Ok in Hmat as (x & Hx & Hmat).
  apply bind_Ok in Hmat as (l & Hl & [= <-]).
  pose proof (XDateRange_init_offset _ _ _ _ _ _ _ _
                (resolve_timeRule_None o) Hx) as Ho.
  assert (x_fromDate x = snapped_from o f ∧ x_toDate x = snapped_to o t)
    as [Hfrom Hto].
  { rewrite (XDateRange_init_both _ _ _ _ _ _ _ (resolve_timeRule_None o))
      in Hx.
    destruct (onOffset o t) eqn:Hon.
    - injection Hx as <-. cbn. unfold snapped_to. by rewrite Hon.
    - destruct p as [n|]; [by injection Hx as <-|].
      destruct (Z.ltb_spec (snapped_to o t) (snapped_from o f)); [lia|].
      by injection Hx as <-. }
  unfold list_XDateRange in Hl.
  assert (XDateRange_iter x = rollforward o f) as Hcur
    by (unfold XDateRange_iter; by rewrite Ho, Hfrom, Hfwd).
  rewrite Hcur in Hl.
  assert (∀ d, d < step x d) as Hstep
    by (intros d; unfold step; rewrite Ho; apply Hinc).
  assert (step x0 = step x) as Hsame by (unfold step; by rewrite Ho0, Ho).
  assert (ps ≤ pe) as Hpos.
  { assert (rollforward o f ≤ rollback o t) as Hse.
    { rewrite Hfwd, Hbwd.
      pose proof (normalize_date_bounds (snapped_from o f)).
      destruct (normalizeFirst o); lia. }
    destruct (list_from_lookup _ _ _ _ HL _ _ Hs) as [Hs' _].
    destruct (list_from_lookup _ _ _ _ HL _ _ He) as [He' _].
    rewrite Hs', He', Hsame in Hse.
    apply (iter_le_iff (step x) _ _ _ Hstep) in Hse. lia. }
  split; [|done]. cbn.
  unfold slice_expr, DateRange_getslice. cbn.
  destruct (Z.ltb_spec ps 0), (Z.ltb_spec (pe + 1) 0); try lia.
  rewrite ndarray_slice_in_range by lia. unfold slice_of.
  replace (Z.to_nat (pe + 1 - ps)) with (Z.to_nat pe + 1 - Z.to_nat ps)%nat
    by lia.
  eapply (iterates_window (step x) (XDateRange_iter x0)); [done| |done|done| |].
  - intros i d Hd. rewrite <- Hsame.
    by destruct (list_from_lookup _ _ _ _ HL _ _ Hd).
  - intros k. rewrite (list_from_length_iff _ _ _ _ _ Hstep Hl).
    by rewrite Hto, Hbwd.
  - intros k d Hd. by destruct (list_from_lookup _ _ _ _ Hl _ _ Hd).
Qed.

End Agreement.

(** ** Shifting backward, and back again *)

Section Shift_more.
Context {O : Type} `{Offset O}.
Implicit Types (self r : DateRange O) (cache : gmap O (DateRange O)).

Lemma slice_expr_until self (n : Z) :
  - len self ≤ n → n < 0 →
  r_values (slice_expr self None (Some n))
  = take (Z.to_nat (len self + n)) (r_values self).
Proof.
  intros Hn Hneg. unfold slice_expr, DateRange_getslice. cbn.
  destruct (Z.ltb_spec n 0); [|lia].
  rewrite ndarray_slice_in_range by (unfold len in *; lia).
  unfold slice_of. cbn [Z.to_nat drop]. f_equal. lia.
Qed.

(** What a backward shift computes, for [n] from [-len] to [-1]. *)
Lemma shift_backward (fuel : nat) self (n : Z) cache r cache' :
  n < 0 → - len self ≤ n →
  shift fuel self n cache = (Ok r, cache') →
  cache' = cache ∧ r_offset r = r_offset self ∧
  ∃ o first head,
    r_offset self = Some o ∧
    DateRange_getitem self 0 = Ok first ∧
    materialize fuel None (Some (date_sub first o)) (Some (- n)) bday None
    = Ok head ∧
    r_values r
    = r_values head ++ take (Z.to_nat (len self + n)) (r_values self).
Proof.
  intros Hn Hlen. unfold shift.
  destruct (Z.ltb_spec 0 n) as [|_]; [lia|].
  destruct (Z.ltb_spec n 0) as [_|]; [|lia].
  unfold mbind, M_bind, lift, mret, M_ret.
  destruct (DateRange_getitem self 0) as [first| |]; [|done..].
  destruct (r_offset self) as [o|] eqn:Ho; [|done]. cbn [sub_offset].
  rewrite DateRange_new_one_boundary by (auto || lia).
  destruct (materialize fuel None (Some (date_sub first o)) (Some (- n)) bday
              None) as [head| |] eqn:Hhead; [|done..].
  intros [= <- <-]. split; [done|]. split; [done|].
  exists o, first, head. repeat split; try done.
  cbn. by rewrite <- slice_expr_until by lia.
Qed.

(** X12. What a shift that returns a range has computed. The result has the
    offset of [self], and the cache is not touched. For a positive [n] it
    holds the elements of [self] from the position [n] on, followed by a
    range generated from the date one offset step after the last element,
    with the period count [n] and the default offset [bday] of the
    constructor. For a negative [n] not below [-len] it holds a range
    generated up to the date one offset step before the first element, with
    the period count [-n] and the offset [bday], followed by the elements
    of [self] without the last [-n]. *)
Theorem shift_result (fuel : nat) self (n : Z) cache r cache' :
  shift fuel self n cache = (Ok r, cache') →
  cache' = cache ∧ r_offset r = r_offset self ∧
  (0 < n →
   ∃ o last tail,
     r_offset self = Some o ∧ DateRange_getitem self (-1) = Ok last ∧
     materialize fuel (Some (date_add last o)) None (Some n) bday None
     = Ok tail ∧
     r_values r = drop (Z.to_nat n) (r_values self) ++ r_values tail) ∧
  (n < 0 → - len self ≤ n →
   ∃ o first head,
     r_offset self = Some o ∧ DateRange_getitem self 0 = Ok first ∧
     materialize fuel None (Some (date_sub first o)) (Some (- n)) bday None
     = Ok head ∧
     r_values r
     = r_values head ++ take (Z.to_nat (len self + n)) (r_values self)).
Proof.
  intros Hs.
  destruct (Z.lt_trichotomy n 0) as [Hn | [-> | Hn]].
  - assert (cache' = cache ∧ r_offset r = r_offset self) as [-> Ho].
    { revert Hs. unfold shift.
      destruct (Z.ltb_spec 0 n) as [|_]; [lia|].
      destruct (Z.ltb_spec n 0) as [_|]; [|lia].
      unfold mbind, M_bind, lift, mret, M_ret.
      destruct (DateRange_getitem self 0) as [first| |]; [|done..].
      destruct (r_offset self) as [o|] eqn:Ho; [|done]. cbn [sub_offset].
      rewrite DateRange_new_one_boundary by (auto || lia).
      destruct (materialize _ _ _ _ _ _) as [head| |]; [|done..].
      by intros [= <- <-]. }
    split; [done|]. split; [done|]. split; [lia|].
    intros _ Hlen. by destruct (shift_backward _ _ _ _ _ _ Hn Hlen Hs) as (_ & _ & ?).
  - rewrite shift_zero in Hs. injection Hs as <- <-.
    split; [done|]. split; [done|]. split; lia.
  - destruct (shift_forward _ _ _ _ _ _ Hn Hs) as (-> & Ho & Hex).
    split; [done|]. split; [done|]. split; [done | lia].
Qed.

(** X13. A shift by a number other than 0 raises [IndexError] on an empty range
    and [TypeError] on a range without offset (one made from a plain
    index); the cache is not touched. *)
Theorem shift_errors (fuel : nat) self (n : Z) cache :
  n ≠ 0 →
  (r_values self = [] → shift fuel self n cache = (Raise IndexError, cache)) ∧
  (r_values self ≠ [] → r_offset self = None →
   shift fuel self n cache = (Raise TypeError, cache)).
Proof.
  intros Hn. unfold shift, mbind, M_bind, lift. split.
  - intros Hv. unfold DateRange_getitem. rewrite Hv.
    destruct (Z.ltb_spec 0 n); [done|].
    destruct (Z.ltb_spec n 0); [done | lia].
  - intros Hv Ho. rewrite Ho.
    destruct (DateRange_getitem_in_range self 0) as [_ Hfst].
    destruct (DateRange_getitem_in_range self (-1)) as [_ Hlst].
    assert (0 < len self) as Hlen.
    { unfold len. destruct (r_values self); [done|]. cbn [length]. lia. }
    destruct (Z.ltb_spec 0 n).
    + destruct (DateRange_getitem self (-1)); [done|exfalso; apply Hlst; lia..].
    + destruct (Z.ltb_spec n 0); [|lia].
      destruct (DateRange_getitem self 0); [done|exfalso; apply Hfst; lia..].
Qed.

(** X14. Shifting forward by [n] and back by [n], when both shifts keep the
    length of the range: the result has the dates of the range at the
    positions from [n] on, and the cache is as before. *)
Theorem shift_round_trip (fuel : nat) self (n : Z) cache r1 cache1 r2 cache2 :
  0 < n → n ≤ len self →
  shift fuel self n cache = (Ok r1, cache1) →
  len r1 = len self →
  shift fuel r1 (- n) cache1 = (Ok r2, cache2) →
  len r2 = len self →
  cache2 = cache ∧ r_offset r2 = r_offset self ∧
  ∀ k : Z, n ≤ k < len self →
    DateRange_getitem r2 k = DateRange_getitem self k.
Proof.
  intros Hn Hle Hs1 Hl1 Hs2 Hl2.
  destruct (shift_forward _ _ _ _ _ _ Hn Hs1)
    as (-> & Ho1 & o & last & tail & Ho & _ & _ & Hv1).
  destruct (shift_backward fuel r1 (- n) cache r2 cache2 ltac:(lia)
              ltac:(lia) Hs2)
    as (-> & Ho2 & o' & first & head & _ & _ & _ & Hv2).
  split; [done|]. split; [congruence|].
  assert (length (r_values tail) = Z.to_nat n) as Htail.
  { unfold len in Hl1, Hle. rewrite Hv1, length_app, length_drop in Hl1. lia. }
  assert (take (Z.to_nat (len r1 + - n)) (r_values r1)
          = drop (Z.to_nat n) (r_values self)) as Hkeep.
  { rewrite Hv1. apply take_app_length'.
    rewrite length_drop. unfold len in *. lia. }
  rewrite Hkeep in Hv2.
  assert (length (r_values head) = Z.to_nat n) as Hhead.
  { unfold len in Hl2, Hle. rewrite Hv2, length_app, length_drop in Hl2. lia. }
  intros k Hk. unfold DateRange_getitem.
  replace k with (Z.of_nat (Z.to_nat k)) by lia.
  rewrite !ndarray_item_nat. rewrite Hv2.
  rewrite lookup_app_r by lia. rewrite lookup_drop.
  replace (Z.to_nat n + (Z.to_nat k - length (r_values head)))%nat
    with (Z.to_nat k) by lia.
  done.
Qed.

End Shift_more.

(** ** Arguments of the constructor *)

Section Arguments_facts.
Context {O : Type} `{Offset O}.
Implicit Types (o offset : O) (cache : gmap O (DateRange O)) (f : datetime).

(** X15. A period count of 0 is taken as absent: with one boundary and
    [periods = 0] (and no [nPeriods] keyword) the constructor raises
    [TypeError] and leaves the cache as it is, although the generator
    itself accepts a period count of 0. *)
Theorem DateRange_new_periods_zero (fuel : nat) f offset tr o tr' cache :
  resolve_timeRule offset tr = Ok (o, tr') →
  DateRange_new fuel (Some f) None (Some 0) offset tr no_kwds cache
  = (Raise TypeError, cache) ∧
  DateRange_new fuel None (Some f) (Some 0) offset tr no_kwds cache
  = (Raise TypeError, cache) ∧
  is_Ok (XDateRange_init (Some f) None (Some 0) offset tr).
Proof.
  intros Hres.
  assert (∀ fromDate toDate : option datetime,
            n_given fromDate toDate None < 2 →
            fromDate = None ∨ toDate = None →
            DateRange_new fuel fromDate toDate (Some 0) offset tr no_kwds cache
            = (Raise TypeError, cache)) as Hnew.
  { intros fromDate toDate Hfew Hone.
    rewrite DateRange_new_dispatch by done.
    replace (boundary_arg fromDate (kw_begin (@no_kwds O))) with fromDate
      by (by destruct fromDate).
    replace (boundary_arg toDate (kw_end (@no_kwds O))) with toDate
      by (by destruct toDate).
    replace (periods_arg (Some 0) (kw_nPeriods (@no_kwds O)))
      with (@None Z) by done.
    assert (cache_path fromDate toDate offset = false) as ->.
    { unfold cache_path, useCache.
      destruct Hone as [-> | ->]; cbn; [done|]. by rewrite andb_false_r. }
    unfold lift, materialize.
    by rewrite (XDateRange_init_few _ _ _ _ _ _ Hres Hfew). }
  split; [apply Hnew; [done | by right]|].
  split; [apply Hnew; [done | by left]|].
  by rewrite (XDateRange_init_from _ _ _ _ _ _ Hres).
Qed.

(** X16. Outside the cache, a construction with a time rule generates its dates
    with the offset of the rule, and yet the range carries the offset that
    was passed. *)
Theorem materialize_offset_argument (fuel : nat)
    (fromDate toDate : option datetime) (periods : option Z) offset
    (rule : string) o' (r : DateRange O) :
  getOffset rule = Ok o' →
  materialize fuel fromDate toDate periods offset (Some rule) = Ok r →
  r_offset r = Some offset ∧ r_parent r = None ∧
  ∃ x, XDateRange_init fromDate toDate periods offset (Some rule) = Ok x ∧
       x_offset x = o' ∧ x_timeRule x = Some rule ∧
       list_XDateRange fuel x = Ok (r_values r).
Proof.
  intros Hrule Hr. unfold materialize in Hr.
  apply bind_Ok in Hr as (x & Hx & Hr).
  apply bind_Ok in Hr as (l & Hl & [= <-]). cbn. split; [done|]. split; [done|].
  exists x. split; [done|].
  assert (resolve_timeRule offset (Some rule) = Ok (o', Some rule)) as Hres
    by (unfold resolve_timeRule; by rewrite Hrule).
  split; [by eapply XDateRange_init_offset|]. split; [|done].
  unfold XDateRange_init in Hx. rewrite Hres in Hx. cbn [mbind result_bind] in Hx.
  apply bind_Ok in Hx as ([t' n'] & _ & Hx).
  apply bind_Ok in Hx as (t'' & _ & Hx).
  apply bind_Ok in Hx as (f'' & _ & Hx).
  by inversion Hx.
Qed.

End Arguments_facts.

(** ** Failures of a cache lookup *)

Section Lookup_failures.
Context {O : Type} `{Offset O}.
Implicit Types (o : O) (cache : gmap O (DateRange O)) (c : DateRange O).

(** X17. The failures of [getCachedRange], in the order of the code. Without an
    offset it raises before reading the cache. Without any boundary it
    raises after the canonical sequence was looked up: a sequence built by
    the failing call stays in the cache. With only [end], a missing period
    count is reported whether or not the date is in the sequence; with only
    [start], the position is looked up first, and a date that is not in the
    sequence gives [KeyError]. *)
Theorem getCachedRange_failures (fuel : nat) (start end_ : option datetime)
    (periods : option Z) o cache c :
  getCachedRange fuel start end_ periods None None cache
  = (Raise (Exception "Must provide a DateOffset!"), cache) ∧
  (cache !! o = None → build_canonical fuel o = Ok c →
   getCachedRange fuel None None periods (Some o) None cache
   = (Raise (Exception "Must provide start or end date!"), <[o := c]> cache)) ∧
  (cache !! o = Some c →
   (∀ e, getCachedRange fuel None (Some e) None (Some o) None cache
         = (Raise (Exception "Must provide number of periods!"), cache)) ∧
   (∀ s, getCachedRange fuel (Some s) None None (Some o) None cache
         = (match indexMap (r_values c) (rollforward o s) with
            | Some _ => Raise (Exception "Must provide number of periods!")
            | None => Raise KeyError
            end, cache))).
Proof.
  split; [done|]. split.
  - intros Hc Hb. rewrite (getCachedRange_unfold _ _ _ _ _ _ o) by done.
    by rewrite cached_canonical_miss, Hb.
  - intros Hc. split.
    + intros e. rewrite (getCachedRange_unfold _ _ _ _ _ _ o) by done.
      by rewrite (cached_canonical_hit _ _ _ _ Hc).
    + intros s. rewrite (getCachedRange_unfold _ _ _ _ _ _ o) by done.
      rewrite (cached_canonical_hit _ _ _ _ Hc).
      unfold index_slice, slice_locs, indexMap_get.
      by destruct (indexMap (r_values c) (rollforward o s)).
Qed.

End Lookup_failures.

(** ** The further properties on inputs *)

Section On_inputs.
Import Datetools.

(** X1, on an input: the last day of the week, by its index and from the end. *)
Lemma DateRange_getitem_bounds_witness :
  DateRange_getitem week 4 = Ok (mkdate 2021 1 8) ∧
  DateRange_getitem week (-1) = Ok (mkdate 2021 1 8).
Proof.
  destruct (DateRange_getitem_bounds week 4) as (_ & _ & Hget).
  exact (Hget 4%nat (mkdate 2021 1 8) eq_refl).
Defined.

(** X2, on an input: the slice from 1 to 4 of the week. *)
Lemma slice_expr_getitem_witness :
  DateRange_getitem (slice_expr week (Some 1) (Some 4)) 2
  = DateRange_getitem week 3.
Proof.
  apply (slice_expr_getitem week 1 4 2); vm_compute; try split; congruence.
Defined.

(** X3, on an input: a bound beyond the end, and a bound counted from the end. *)
Lemma slice_expr_len_witness :
  len (slice_expr week (Some 2) (Some 10)) = 3 ∧
  slice_expr week (Some (-2)) (Some 5) = slice_expr week (Some 3) (Some 5).
Proof.
  destruct (slice_expr_len week 2 10) as (Hlen & _ & _).
  destruct (slice_expr_len week (-2) 5) as (_ & Hneg & _).
  split.
  - rewrite Hlen by lia. vm_compute. reflexivity.
  - apply Hneg. vm_compute. split; congruence.
Defined.

(** X4, on an input: a slice of a slice of the week. *)
Lemma slice_expr_compose_witness :
  slice_expr (slice_expr week (Some 1) (Some 5)) (Some 1) (Some 3)
  = slice_expr week (Some 2) (Some 4).
Proof.
  apply (slice_expr_compose week 1 5 1 3); vm_compute; congruence.
Defined.

Lemma week_adjacent (n : nat) u v :
  r_values week !! n = Some u → r_values week !! S n = Some v →
  v = date_add u (BDay 1).
Proof.
  destruct n as [|[|[|[|[|n]]]]]; cbn [week r_values lookup list_lookup];
    intros [= <-] Hv; try discriminate Hv; injection Hv as <-;
    vm_compute; reflexivity.
Qed.

Lemma week_increasing (i j : nat) x y :
  (i < j)%nat → r_values week !! i = Some x → r_values week !! j = Some y →
  x < y.
Proof.
  intros Hij.
  destruct i as [|[|[|[|[|i]]]]]; cbn [week r_values lookup list_lookup];
    intros [= <-];
    destruct j as [|[|[|[|[|j]]]]]; cbn [lookup list_lookup];
    intros Hy; try discriminate Hy; try lia; injection Hy as <-;
    vm_compute; reflexivity.
Qed.

(** X5, on an input: every second day of the week. *)
Lemma DateRange_getitem_step_spec_witness :
  ∃ r, DateRange_getitem_step week None None 2 = Ok r ∧
       r_offset r = Some (BDay 2) ∧
       r_values r = [mkdate 2021 1 4; mkdate 2021 1 6; mkdate 2021 1 8] ∧
       ∀ (m : nat) u v, r_values r !! m = Some u → r_values r !! S m = Some v →
         v = Nat.iter 2 (λ c, date_add c (BDay 1)) u.
Proof.
  destruct (DateRange_getitem_step_spec week None None 2) as [_ Hstep].
  destruct (Hstep (BDay 1) eq_refl) as (r & Hr & Ho & _ & _ & Hadj).
  exists r. split; [exact Hr|]. split; [exact Ho|].
  split; [injection Hr as <-; vm_compute; reflexivity|].
  exact (Hadj week_adjacent).
Defined.

(** X6, on an input: the days of the week up to Tuesday. *)
Lemma DateRange_le_mask_witness :
  DateRange_le week (mkdate 2021 1 5) = [true; true; false; false; false] ∧
  r_values (slice_expr week None (Some 2))
  = [mkdate 2021 1 4; mkdate 2021 1 5].
Proof.
  destruct (DateRange_le_mask week (mkdate 2021 1 5) week_increasing)
    as [Hmask Hslice].
  split.
  - rewrite Hmask. vm_compute. reflexivity.
  - vm_compute in Hslice |- *. exact Hslice.
Defined.

(** X9, on an input: five business days from Friday 2021-01-01. *)
Lemma XDateRange_periods_count_witness :
  ∃ x l, XDateRange_init (Some (mkdate 2021 1 1)) None (Some 5) (BDay 1) None
         = Ok x ∧
         list_XDateRange 10 x = Ok l ∧ length l = 5%nat ∧
         last l = Some (mkdate 2021 1 7).
Proof.
  eexists _, _. split; [vm_compute; reflexivity|].
  split; [vm_compute; reflexivity|].
  match goal with
  | |- length ?l = _ ∧ _ =>
      destruct (XDateRange_periods_count (mkdate 2021 1 1) 5 (BDay 1) None
                  (BDay 1) (Some "WEEKDAY"%string)
                  (mkXDateRange (BDay 1) (Some "WEEKDAY"%string)
                     (mkdate 2021 1 1) (mkdate 2021 1 7) (Some 5))
                  10%nat l resolve_timeRule_BDay)
        as (Hlen & _ & Hlast)
  end.
  - lia.
  - intros d. apply BDay_apply_1_lt.
  - intros _. vm_compute. reflexivity.
  - vm_compute. reflexivity.
  - vm_compute. reflexivity.
  - vm_compute. reflexivity.
  - split; [exact Hlen|]. rewrite Hlast. vm_compute. reflexivity.
Defined.

(** X10, on an input: the business days from Saturday 2021-01-02 to Sunday 2021-01-10. *)
Lemma XDateRange_within_bounds_witness :
  Forall (λ d, mkdate 2021 1 2 ≤ d ≤ mkdate 2021 1 10)
    [mkdate 2021 1 4; mkdate 2021 1 5; mkdate 2021 1 6; mkdate 2021 1 7;
     mkdate 2021 1 8].
Proof.
  apply (XDateRange_within_bounds (mkdate 2021 1 2) (mkdate 2021 1 10) None
           (BDay 1) None (BDay 1) (Some "WEEKDAY"%string)
           (mkXDateRange (BDay 1) (Some "WEEKDAY"%string) (mkdate 2021 1 4)
              (mkdate 2021 1 8) None) 10%nat _ resolve_timeRule_BDay).
  - intros d. apply BDay_apply_1_lt.
  - vm_compute. congruence.
  - vm_compute. congruence.
  - intros _. vm_compute. reflexivity.
  - vm_compute. reflexivity.
  - vm_compute. reflexivity.
  - vm_compute. reflexivity.
Defined.

(** X12, on an input: Thursday and Friday shifted by 1 and by -1. *)
Lemma shift_result_witness :
  (∃ r, shift 10 two_days 1 ∅ = (Ok r, ∅) ∧
        r_values r = [mkdate 2021 1 8; mkdate 2021 1 11] ∧
        r_offset r = Some (BDay 1)) ∧
  (∃ r, shift 10 two_days (-1) ∅ = (Ok r, ∅) ∧
        r_values r = [mkdate 2021 1 6; mkdate 2021 1 7] ∧
        r_offset r = Some (BDay 1)).
Proof.
  split.
  - eexists. split; [vm_compute; reflexivity|].
    split; [vm_compute; reflexivity|].
    match goal with
    | |- r_offset ?r = _ =>
        destruct (shift_result 10 two_days 1 ∅ r ∅) as (_ & Ho & _)
    end; [vm_compute; reflexivity | exact Ho].
  - eexists. split; [vm_compute; reflexivity|].
    split; [vm_compute; reflexivity|].
    match goal with
    | |- r_offset ?r = _ =>
        destruct (shift_result 10 two_days (-1) ∅ r ∅) as (_ & Ho & _)
    end; [vm_compute; reflexivity | exact Ho].
Defined.

(** X13, on an input: an empty range, and a range made from a plain index. *)
Lemma shift_errors_witness :
  shift 10 (mkDateRange [] (Some (BDay 1)) None) 1 ∅ = (Raise IndexError, ∅) ∧
  shift 10 (fromIndex (ndarray [mkdate 2021 1 7])) (-1) ∅
  = (Raise TypeError, ∅).
Proof.
  split.
  - apply (shift_errors 10 (mkDateRange [] (Some (BDay 1)) None) 1 ∅);
      [lia | reflexivity].
  - apply (shift_errors 10 (fromIndex (ndarray [mkdate 2021 1 7])) (-1) ∅);
      [lia | discriminate | reflexivity].
Defined.

(** X14, on an input: Thursday and Friday shifted by 1 and back. *)
Lemma shift_round_trip_witness :
  ∃ r1 r2, shift 10 two_days 1 ∅ = (Ok r1, ∅) ∧
           shift 10 r1 (-1) ∅ = (Ok r2, ∅) ∧
           DateRange_getitem r2 1 = DateRange_getitem two_days 1.
Proof.
  eexists _, _. split; [vm_compute; reflexivity|].
  split; [vm_compute; reflexivity|].
  match goal with
  | |- DateRange_getitem ?r2 _ = _ =>
      destruct (shift_round_trip 10 two_days 1 ∅
                  (mkDateRange [mkdate 2021 1 8; mkdate 2021 1 11]
                     (Some (BDay 1)) None) ∅ r2 ∅) as (_ & _ & Hsame)
  end.
  - lia.
  - vm_compute. congruence.
  - vm_compute. reflexivity.
  - vm_compute. reflexivity.
  - vm_compute. reflexivity.
  - vm_compute. reflexivity.
  - apply Hsame. vm_compute. split; congruence.
Defined.

(** X15, on an input: a period count of 0 from Monday 2021-01-04. *)
Lemma DateRange_new_periods_zero_witness :
  DateRange_new 10 (Some (mkdate 2021 1 4)) None (Some 0) (BDay 1) None
    no_kwds ∅ = (Raise TypeError, ∅) ∧
  XDateRange_init (Some (mkdate 2021 1 4)) None (Some 0) (BDay 1) None
  = Ok (mkXDateRange (BDay 1) (Some "WEEKDAY"%string) (mkdate 2021 1 4)
          (mkdate 2021 1 1) (Some 0)).
Proof.
  split; [|vm_compute; reflexivity].
  exact (proj1 (DateRange_new_periods_zero 10 (mkdate 2021 1 4) (BDay 1) None
                  (BDay 1) (Some "WEEKDAY"%string) ∅ resolve_timeRule_BDay)).
Defined.

(** X16, on an input: calendar days as offset with the rule of the business day. *)
Lemma materialize_offset_argument_witness :
  ∃ r, materialize 10 (Some (mkdate 2021 1 2)) None (Some 3) (DateOffset 1)
         (Some "WEEKDAY"%string) = Ok r ∧
       r_values r = [mkdate 2021 1 4; mkdate 2021 1 5; mkdate 2021 1 6] ∧
       r_offset r = Some (DateOffset 1).
Proof.
  eexists. split; [vm_compute; reflexivity|].
  split; [vm_compute; reflexivity|].
  match goal with
  | |- r_offset ?r = _ =>
      apply (materialize_offset_argument 10 (Some (mkdate 2021 1 2)) None
               (Some 3) (DateOffset 1) "WEEKDAY" (BDay 1) r)
  end.
  - reflexivity.
  - vm_compute. reflexivity.
Defined.

(** X17, on an input: a lookup without boundaries for the offset of 5000 calendar days. *)
Lemma getCachedRange_failures_witness :
  ∃ c, build_canonical 30 (DateOffset 5000) = Ok c ∧
       len c = 6 ∧
       getCachedRange 30 None None None (Some (DateOffset 5000)) None ∅
       = (Raise (Exception "Must provide start or end date!"),
          {[DateOffset 5000 := c]}).
Proof.
  eexists. split; [vm_compute; reflexivity|].
  split; [vm_compute; reflexivity|].
  match goal with
  | |- _ = (_, {[ _ := ?c ]}) =>
      destruct (getCachedRange_failures 30 None None None (DateOffset 5000)
                  ∅ c) as (_ & Hnone & _)
  end.
  apply Hnone; [apply lookup_empty | vm_compute; reflexivity].
Defined.

Lemma calendar_lookup :
  is_Ok (fst (getCachedRange (Z.to_nat 30000) (Some (mkdate 2021 1 2))
                (Some (mkdate 2021 1 5)) None (Some (DateOffset 1)) None ∅)).
Proof. vm_compute. exact I. Qed.

(** X11, on an input: the calendar days from 2021-01-02 to 2021-01-05. *)
Lemma cached_range_is_generated_range_witness :
  ∃ r cache',
    getCachedRange (Z.to_nat 30000) (Some (mkdate 2021 1 2))
      (Some (mkdate 2021 1 5)) None (Some (DateOffset 1)) None ∅
    = (Ok r, cache') ∧
    r_values r
    = [mkdate 2021 1 2; mkdate 2021 1 3; mkdate 2021 1 4; mkdate 2021 1 5].
Proof.
  pose proof calendar_lookup as Hok.
  destruct (getCachedRange (Z.to_nat 30000) (Some (mkdate 2021 1 2))
              (Some (mkdate 2021 1 5)) None (Some (DateOffset 1)) None ∅)
    as [[r| |] cache'] eqn:Hget; [|exact (False_rect _ Hok)..].
  exists r, cache'. split; [reflexivity|].
  apply (cached_range_is_generated_range (Z.to_nat 30000) 10 (DateOffset 1)
           (mkdate 2021 1 2) (mkdate 2021 1 5) None ∅ r cache'
           (mkDateRange
              [mkdate 2021 1 2; mkdate 2021 1 3; mkdate 2021 1 4;
               mkdate 2021 1 5] (Some (DateOffset 1)) None)).
  - intros d. cbn. unfold us_per_day. lia.
  - vm_compute. reflexivity.
  - vm_compute. reflexivity.
  - vm_compute. congruence.
  - intros o c Hc. rewrite lookup_empty in Hc. discriminate Hc.
  - exact Hget.
  - vm_compute. reflexivity.
Defined.

End On_inputs.
